(** * memU Go SDK: the request executor, its retry policies and its error
    classifier

    A shallow embedding of [client.go] (the [request] loop and
    [raiseForStatus]), [models.go] (the retry policies), [errors.go] (the
    error constructors) and [options.go] (the client options), followed by
    the properties established about them.

    Conventions.
    - Go's [int] and [time.Duration] are 64-bit two's-complement integers:
      they are carried as [Z] and every arithmetic operation of the source
      is followed by an explicit wrap ([Int64.wrap]).
    - Go's [float64] is IEEE-754 binary64, carried as [spec_float] with
      precision 53 and exponent bound 1024.
    - [map[string]interface{}] is a possibly nil finite map from strings to
      JSON values: [option (gmap string json)].
    - The standard-library routines the executor calls, and whose text is
      not part of the SDK ([json.Unmarshal], [strconv.ParseFloat],
      [http.NewRequestWithContext]), are parameters of the executor
      ([StdLib]); a reference instance covering the usual fragment of their
      input language is given for evaluation on concrete inputs. *)

From Stdlib Require Import ZArith Lia Ascii String.
From Stdlib Require Import Floats.SpecFloat.
From stdpp Require Import gmap strings list pretty.

Set Warnings "-register-all".
Open Scope Z_scope.

(* ===================================================================== *)
(** ** Machine integers *)
(* ===================================================================== *)

Module Int64.

Definition modulus : Z := 2 ^ 64.
Definition half_modulus : Z := 2 ^ 63.
Definition min_int : Z := - half_modulus.
Definition max_int : Z := half_modulus - 1.

(** Reduction of a mathematical integer to its int64 representative. *)
Definition wrap (z : Z) : Z := (z + half_modulus) mod modulus - half_modulus.

Definition in_range (z : Z) : Prop := min_int <= z <= max_int.

Definition add (a b : Z) : Z := wrap (a + b).
Definition mul (a b : Z) : Z := wrap (a * b).

(** [uint(x)] for an [int] x: the same bits read as unsigned. *)
Definition to_uint (x : Z) : Z := x mod modulus.

(** [a << count] at type int64 with an unsigned count: counts of 64 or
    more shift every bit out. *)
Definition shl (a : Z) (count : Z) : Z :=
  if count <? 64 then wrap (Z.shiftl a count) else 0.

End Int64.

(** [time.Duration]: a count of nanoseconds in an int64. *)
Definition Duration : Type := Z.
Definition Nanosecond : Duration := 1.
Definition Second : Duration := 1000000000.

(* ===================================================================== *)
(** ** binary64 floating point *)
(* ===================================================================== *)

Module Float64.

Definition float64 : Type := spec_float.
Definition prec : Z := 53.
Definition emax : Z := 1024.

Definition mul : float64 -> float64 -> float64 := SFmul prec emax.
Definition div : float64 -> float64 -> float64 := SFdiv prec emax.

(** [float64(x)] for an int64 x (round to nearest, ties to even). *)
Definition of_int64 (x : Z) : float64 := binary_normalize prec emax x 0 false.

(** [int64(f)] (and [time.Duration(f)]): truncation toward zero.  The Go
    specification leaves the result open when the value does not fit;
    the amd64 conversion instruction yields the most negative integer
    there, which is what is written here. *)
Definition to_int64 (f : float64) : Z :=
  match f with
  | S754_zero _ => 0
  | S754_finite s m e =>
      let mag := Z.shiftl (Z.pos m) e in
      let v := if s then - mag else mag in
      if (Int64.min_int <=? v) && (v <=? Int64.max_int) then v else Int64.min_int
  | S754_infinity _ | S754_nan => Int64.min_int
  end.

(** The correctly rounded binary64 value of [(-1)^neg * m * 10^e10]. *)
Definition of_decimal (neg : bool) (m e10 : Z) : float64 :=
  if m <=? 0 then S754_zero neg
  else if 0 <=? e10 then
    binary_normalize prec emax ((if neg then - m else m) * 10 ^ e10) 0 neg
  else
    let '(q, e, l) := SFdiv_core_binary prec emax m 0 (10 ^ (- e10)) 0 in
    binary_round_aux prec emax neg q e l.

End Float64.
Export Float64 (float64).

(* ===================================================================== *)
(** ** Characters and decimal numerals *)
(* ===================================================================== *)

Definition dquote : ascii := ascii_of_nat 34.
Definition backslash : ascii := ascii_of_nat 92.

(** [quoted s] is [s] between two double-quote characters. *)
Definition quoted (s : string) : string := String dquote (s +:+ String dquote EmptyString).

Definition code (c : ascii) : Z := Z.of_N (N_of_ascii c).
Definition byte_chr (z : Z) : ascii := ascii_of_N (Z.to_N z).

Definition is_digit (c : ascii) : bool := (48 <=? code c) && (code c <=? 57).
Definition digit_val (c : ascii) : Z := code c - 48.

(** Reads the longest run of decimal digits at the head of [s]: the value
    read on top of [acc], the number of digits, and what follows. *)
Fixpoint read_digits (acc n : Z) (s : string) : Z * Z * string :=
  match s with
  | String c s' =>
      if is_digit c then read_digits (10 * acc + digit_val c) (n + 1) s'
      else (acc, n, s)
  | EmptyString => (acc, n, s)
  end.

Definition read_sign (s : string) : bool * string :=
  match s with
  | String "-" s' => (true, s')
  | String "+" s' => (false, s')
  | _ => (false, s)
  end.

(** The fraction [. digits], when present: mantissa so far, number of
    fractional digits, rest. *)
Definition read_fraction (m : Z) (s : string) : Z * Z * string :=
  match s with
  | String "." s' => read_digits m 0 s'
  | _ => (m, 0, s)
  end.

(** The exponent [(e|E) [sign] digits], when present. [None]: an exponent
    mark with no digit after it. *)
Definition read_exponent (s : string) : option (Z * string) :=
  match s with
  | String c s' =>
      if (code c =? 101) || (code c =? 69) then
        let '(neg, s1) := read_sign s' in
        let '(e, n, s2) := read_digits 0 0 s1 in
        if n =? 0 then None else Some (if neg then - e else e, s2)
      else Some (0, s)
  | EmptyString => Some (0, s)
  end.

(** Reference instance of [strconv.ParseFloat(s, 64)] on plain decimal
    numerals: [sign] digits [. digits] [(e|E) [sign] digits] with at least
    one digit in the mantissa.  A numeral whose value rounds to an infinity
    is a range error.  Hexadecimal mantissas, digit-separating underscores
    and the names Inf and NaN are outside this fragment and are rejected
    here. *)
Definition ParseFloat_decimal (s : string) : option float64 :=
  let '(neg, s0) := read_sign s in
  let '(m1, n1, s1) := read_digits 0 0 s0 in
  let '(m2, n2, s2) := read_fraction m1 s1 in
  if n1 + n2 =? 0 then None
  else
    match read_exponent s2 with
    | Some (e, EmptyString) =>
        match Float64.of_decimal neg m2 (e - n2) with
        | S754_infinity _ | S754_nan => None
        | f => Some f
        end
    | _ => None
    end.

(* ===================================================================== *)
(** ** JSON values and decoded payloads *)
(* ===================================================================== *)

(** What [encoding/json] stores in an [interface{}]: nil, bool, float64,
    string, [[]interface{}] and [map[string]interface{}]. *)
Inductive json : Type :=
| JNull
| JBool (b : bool)
| JNumber (f : float64)
| JString (s : string)
| JArray (l : list json)
| JObject (m : gmap string json).

(** A [map[string]interface{}] value: [None] is the nil map. *)
Abbreviation payload := (option (gmap string json)).

(** The outcome of [json.Unmarshal(data, &result)] for a nil [result] of
    type [map[string]interface{}]: an error, or the value left in
    [result]. *)
Inductive Decoded : Type :=
| DecodeError
| DecodedTo (result : payload).

Module JsonText.

Definition is_space (c : ascii) : bool :=
  (code c =? 32) || (code c =? 9) || (code c =? 10) || (code c =? 13).

Fixpoint skip_space (s : string) : string :=
  match s with
  | String c s' => if is_space c then skip_space s' else s
  | EmptyString => s
  end.

Definition hex_val (c : ascii) : option Z :=
  let n := code c in
  if (48 <=? n) && (n <=? 57) then Some (n - 48)
  else if (97 <=? n) && (n <=? 102) then Some (n - 87)
  else if (65 <=? n) && (n <=? 70) then Some (n - 55)
  else None.

Definition hex4 (a b c d : ascii) : option Z :=
  match hex_val a, hex_val b, hex_val c, hex_val d with
  | Some x, Some y, Some z, Some w => Some (((x * 16 + y) * 16 + z) * 16 + w)
  | _, _, _, _ => None
  end.

Definition utf8_encode (cp : Z) : string :=
  if cp <? 128 then String (byte_chr cp) EmptyString
  else if cp <? 2048 then
    String (byte_chr (192 + cp / 64))
      (String (byte_chr (128 + cp mod 64)) EmptyString)
  else if cp <? 65536 then
    String (byte_chr (224 + cp / 4096))
      (String (byte_chr (128 + (cp / 64) mod 64))
         (String (byte_chr (128 + cp mod 64)) EmptyString))
  else
    String (byte_chr (240 + cp / 262144))
      (String (byte_chr (128 + (cp / 4096) mod 64))
         (String (byte_chr (128 + (cp / 64) mod 64))
            (String (byte_chr (128 + cp mod 64)) EmptyString))).

Definition replacement_char : string := utf8_encode 65533.

Definition is_high_surrogate (cp : Z) : bool := (55296 <=? cp) && (cp <? 56320).
Definition is_low_surrogate (cp : Z) : bool := (56320 <=? cp) && (cp <? 57344).

(** An unpaired high surrogate left behind decodes to U+FFFD. *)
Definition flush (pending : option Z) : string :=
  match pending with Some _ => replacement_char | None => EmptyString end.

Definition simple_escape (e : ascii) : option ascii :=
  let n := code e in
  if n =? 34 then Some dquote
  else if n =? 92 then Some backslash
  else if n =? 47 then Some (byte_chr 47)
  else if n =? 98 then Some (byte_chr 8)
  else if n =? 102 then Some (byte_chr 12)
  else if n =? 110 then Some (byte_chr 10)
  else if n =? 114 then Some (byte_chr 13)
  else if n =? 116 then Some (byte_chr 9)
  else None.

Definition prepend (pre : string) (r : option (string * string)) : option (string * string) :=
  match r with
  | Some (str, rest) => Some (pre +:+ str, rest)
  | None => None
  end.

(** The characters of a string literal after its opening quote, up to
    and including the closing quote: the decoded text and what follows.
    [pending] holds a high surrogate read from a \u escape that still
    waits for its low half. *)
Fixpoint read_string (pending : option Z) (s : string) : option (string * string) :=
  match s with
  | EmptyString => None
  | String c s' =>
      if code c =? 34 then Some (flush pending, s')
      else if code c =? 92 then
        match s' with
        | String e s2 =>
            if code e =? 117 then
              match s2 with
              | String h1 (String h2 (String h3 (String h4 s3))) =>
                  match hex4 h1 h2 h3 h4 with
                  | Some cp =>
                      match pending with
                      | Some hi =>
                          if is_low_surrogate cp then
                            prepend (utf8_encode (65536 + (hi - 55296) * 1024 + (cp - 56320)))
                              (read_string None s3)
                          else if is_high_surrogate cp then
                            prepend replacement_char (read_string (Some cp) s3)
                          else
                            prepend (replacement_char +:+ utf8_encode cp) (read_string None s3)
                      | None =>
                          if is_high_surrogate cp then read_string (Some cp) s3
                          else if is_low_surrogate cp then
                            prepend replacement_char (read_string None s3)
                          else prepend (utf8_encode cp) (read_string None s3)
                      end
                  | None => None
                  end
              | _ => None
              end
            else
              match simple_escape e with
              | Some ch => prepend (flush pending +:+ String ch EmptyString) (read_string None s2)
              | None => None
              end
        | EmptyString => None
        end
      else if code c <? 32 then None
      else prepend (flush pending +:+ String c EmptyString) (read_string None s')
  end.

(** A JSON number: -? (0 | [1-9] digits) (. digits+)? ((e|E) (+|-)? digits+)?
    converted as [strconv.ParseFloat] does; a value out of the float64
    range is an error. *)
Definition read_number (s : string) : option (float64 * string) :=
  let '(neg, s0) :=
    match s with String "-" s' => (true, s') | _ => (false, s) end in
  let int_part :=
    match s0 with
    | String "0" s1 => Some (0, s1)
    | String c _ =>
        if is_digit c then let '(m, _, s1) := read_digits 0 0 s0 in Some (m, s1)
        else None
    | EmptyString => None
    end in
  match int_part with
  | None => None
  | Some (m, s1) =>
      let frac :=
        match s1 with
        | String "." s2 =>
            let '(m2, n2, s3) := read_digits m 0 s2 in
            if n2 =? 0 then None else Some (m2, n2, s3)
        | _ => Some (m, 0, s1)
        end in
      match frac with
      | None => None
      | Some (m2, n2, s3) =>
          match read_exponent s3 with
          | Some (e, s4) =>
              match Float64.of_decimal neg m2 (e - n2) with
              | S754_infinity _ | S754_nan => None
              | f => Some (f, s4)
              end
          | None => None
          end
      end
  end.

Fixpoint strip_prefix (p s : string) : option string :=
  match p, s with
  | EmptyString, _ => Some s
  | String a p', String b s' => if Ascii.eqb a b then strip_prefix p' s' else None
  | String _ _, EmptyString => None
  end.

(** The decoder nests arrays and objects at most this deep. *)
Definition maxNestingDepth : Z := 10000.

(** One JSON value at the head of [s] (after white space), and the rest
    of the text.  Keys repeated in an object keep their last value. *)
Fixpoint decode_value (fuel : nat) (depth : Z) (s : string) : option (json * string) :=
  match fuel with
  | O => None
  | S fuel' =>
      match skip_space s with
      | EmptyString => None
      | String c r =>
          if code c =? 123 then
            if maxNestingDepth <? depth + 1 then None
            else
              match skip_space r with
              | EmptyString => None
              | String c' r' =>
                  if code c' =? 125 then Some (JObject ∅, r')
                  else decode_members fuel' (depth + 1) ∅ r
              end
          else if code c =? 91 then
            if maxNestingDepth <? depth + 1 then None
            else
              match skip_space r with
              | EmptyString => None
              | String c' r' =>
                  if code c' =? 93 then Some (JArray [], r')
                  else decode_elements fuel' (depth + 1) [] r
              end
          else if code c =? 34 then
            match read_string None r with
            | Some (str, r') => Some (JString str, r')
            | None => None
            end
          else
            match strip_prefix "true" (String c r),
                  strip_prefix "false" (String c r),
                  strip_prefix "null" (String c r) with
            | Some r', _, _ => Some (JBool true, r')
            | _, Some r', _ => Some (JBool false, r')
            | _, _, Some r' => Some (JNull, r')
            | None, None, None =>
                match read_number (String c r) with
                | Some (f, r') => Some (JNumber f, r')
                | None => None
                end
            end
      end
  end
with decode_members (fuel : nat) (depth : Z) (m : gmap string json) (s : string)
    : option (json * string) :=
  match fuel with
  | O => None
  | S fuel' =>
      match skip_space s with
      | EmptyString => None
      | String c r =>
          if code c =? 34 then
            match read_string None r with
            | None => None
            | Some (k, r1) =>
                match skip_space r1 with
                | EmptyString => None
                | String colon r2 =>
                    if code colon =? 58 then
                      match decode_value fuel' depth r2 with
                      | None => None
                      | Some (v, r3) =>
                          match skip_space r3 with
                          | EmptyString => None
                          | String d r4 =>
                              if code d =? 44 then decode_members fuel' depth (<[k:=v]> m) r4
                              else if code d =? 125 then Some (JObject (<[k:=v]> m), r4)
                              else None
                          end
                      end
                    else None
                end
            end
          else None
      end
  end
with decode_elements (fuel : nat) (depth : Z) (acc : list json) (s : string)
    : option (json * string) :=
  match fuel with
  | O => None
  | S fuel' =>
      match decode_value fuel' depth s with
      | None => None
      | Some (v, r1) =>
          match skip_space r1 with
          | EmptyString => None
          | String d r2 =>
              if code d =? 44 then decode_elements fuel' depth (acc ++ [v]) r2
              else if code d =? 93 then Some (JArray (acc ++ [v]), r2)
              else None
          end
      end
  end.

(** Reference instance of [json.Unmarshal] into a nil
    [map[string]interface{}]: the text must be one JSON value with only
    white space around it; an object fills a fresh map, [null] leaves the
    map nil, any other value is a type error.  The text is taken to be
    valid UTF-8. *)
Definition Unmarshal (data : string) : Decoded :=
  match decode_value (S (String.length data)) 0 data with
  | Some (v, rest) =>
      match skip_space rest with
      | EmptyString =>
          match v with
          | JObject m => DecodedTo (Some m)
          | JNull => DecodedTo None
          | _ => DecodeError
          end
      | String _ _ => DecodeError
      end
  | None => DecodeError
  end.

End JsonText.

(* ===================================================================== *)
(** ** errors.go *)
(* ===================================================================== *)

(** [ClientError]: the base error of the SDK. *)
Record ClientError : Type := mkClientError {
  Message : string;
  StatusCode : option Z;
  Response : payload
}.

(** Go [error] values met by the executor: errors handed over by the
    standard library and the transport, [fmt.Errorf] wrappers ending in
    [": %w"], and the SDK's own error types, each embedding a
    [ClientError]. *)
Inductive error : Type :=
| ForeignError (msg : string)
| Errorf (text : string) (cause : error)
| EClientError (e : ClientError)
| EAuthenticationError (e : ClientError)
| ERateLimitError (e : ClientError) (RetryAfter : option float64)
| ENotFoundError (e : ClientError)
| EValidationError (e : ClientError).

(** The [Error] method of [ClientError]. *)
Definition ClientError_Error (e : ClientError) : string :=
  match StatusCode e with
  | Some status => "MemU API error (status " +:+ pretty status +:+ "): " +:+ Message e
  | None => "MemU API error: " +:+ Message e
  end.

(** The [Error] method of every error value; the SDK's types inherit it
    from the embedded [ClientError]. *)
Fixpoint Error_string (err : error) : string :=
  match err with
  | ForeignError msg => msg
  | Errorf text cause => text +:+ ": " +:+ Error_string cause
  | EClientError e | EAuthenticationError e | ERateLimitError e _
  | ENotFoundError e | EValidationError e => ClientError_Error e
  end.

(** The [ClientError] inside an SDK error. *)
Definition embedded (err : error) : option ClientError :=
  match err with
  | EClientError e | EAuthenticationError e | ERateLimitError e _
  | ENotFoundError e | EValidationError e => Some e
  | ForeignError _ | Errorf _ _ => None
  end.

Definition NewAuthenticationError (statusCode : option Z) (response : payload) : error :=
  let message := "Authentication failed. Please check your API key." in
  let message :=
    match response with
    | Some m =>
        match m !! "message" with
        | Some (JString msg) => if decide (msg = EmptyString) then message else msg
        | _ => message
        end
    | None => message
    end in
  EAuthenticationError
    {| Message := message; StatusCode := statusCode; Response := response |}.

Definition NewRateLimitError (message : string) (retryAfter : option float64)
    (statusCode : option Z) (response : payload) : error :=
  ERateLimitError
    {| Message := message; StatusCode := statusCode; Response := response |}
    retryAfter.

Definition NewNotFoundError (path : string) (statusCode : option Z) (response : payload) : error :=
  let message := "Resource not found: " +:+ path in
  let message :=
    match response with
    | Some m =>
        match m !! "message" with
        | Some (JString msg) => if decide (msg = EmptyString) then message else msg
        | _ => message
        end
    | None => message
    end in
  ENotFoundError
    {| Message := message; StatusCode := statusCode; Response := response |}.

Definition NewValidationError (statusCode : option Z) (response : payload) : error :=
  let message := "Request validation failed. Please check your request parameters." in
  let message :=
    match response with
    | Some m =>
        match m !! "message" with
        | Some (JString msg) => if decide (msg = EmptyString) then message else msg
        | _ => message
        end
    | None => message
    end in
  EValidationError
    {| Message := message; StatusCode := statusCode; Response := response |}.

Definition NewClientError (message : string) (statusCode : option Z) (response : payload) : error :=
  EClientError
    {| Message := message; StatusCode := statusCode; Response := response |}.

(* ===================================================================== *)
(** ** models.go: retry policies *)
(* ===================================================================== *)

(** The [RetryPolicy] interface: an interface value is its two methods,
    closed over the receiver.  [err] is [None] for a nil error. *)
Record RetryPolicy : Type := mkRetryPolicy {
  ShouldRetry : Z -> Z -> option error -> bool;
  GetBackoff : Z -> Duration
}.

Record RetryConfig : Type := mkRetryConfig {
  MaxRetries : Z;
  BaseDelay : Duration;
  MaxDelay : Duration;
  RetryableStatusCodes : gmap Z bool
}.

Definition DefaultRetryConfig : RetryConfig :=
  {| MaxRetries := 3;
     BaseDelay := 1 * Second;
     MaxDelay := 32 * Second;
     RetryableStatusCodes :=
       {[ 429 := true; 500 := true; 502 := true; 503 := true; 504 := true ]} |}.

(** [m[k]] on a [map[int]bool]: the zero value [false] for an absent key. *)
Definition map_index (m : gmap Z bool) (k : Z) : bool := default false (m !! k).

Definition defaultRetryPolicy_ShouldRetry (config : RetryConfig)
    (attempt statusCode : Z) (err : option error) : bool :=
  if MaxRetries config <=? attempt then false
  else if bool_decide (err <> None) then true
  else if 0 <? statusCode then map_index (RetryableStatusCodes config) statusCode
  else false.

Definition defaultRetryPolicy_GetBackoff (config : RetryConfig) (attempt : Z) : Duration :=
  let backoff := Int64.mul (BaseDelay config) (Int64.shl 1 (Int64.to_uint attempt)) in
  if MaxDelay config <? backoff then MaxDelay config else backoff.

Definition NewDefaultRetryPolicy (config : option RetryConfig) : RetryPolicy :=
  let config := match config with None => DefaultRetryConfig | Some c => c end in
  {| ShouldRetry := defaultRetryPolicy_ShouldRetry config;
     GetBackoff := defaultRetryPolicy_GetBackoff config |}.

Definition noRetryPolicy_ShouldRetry (attempt statusCode : Z) (err : option error) : bool :=
  false.

Definition noRetryPolicy_GetBackoff (attempt : Z) : Duration := 0.

Definition NewNoRetryPolicy : RetryPolicy :=
  {| ShouldRetry := noRetryPolicy_ShouldRetry; GetBackoff := noRetryPolicy_GetBackoff |}.

Definition CustomRetryFunc : Type := Z -> Z -> option error -> bool.
Definition CustomBackoffFunc : Type := Z -> Duration.

Record customRetryPolicy : Type := mkCustomRetryPolicy {
  custom_shouldRetry : CustomRetryFunc;
  custom_getBackoff : CustomBackoffFunc;
  custom_maxRetries : Z
}.

Definition customRetryPolicy_ShouldRetry (p : customRetryPolicy)
    (attempt statusCode : Z) (err : option error) : bool :=
  if custom_maxRetries p <=? attempt then false
  else custom_shouldRetry p attempt statusCode err.

Definition customRetryPolicy_GetBackoff (p : customRetryPolicy) (attempt : Z) : Duration :=
  custom_getBackoff p attempt.

Definition NewCustomRetryPolicy (maxRetries : Z) (shouldRetry : CustomRetryFunc)
    (getBackoff : CustomBackoffFunc) : RetryPolicy :=
  let p := {| custom_shouldRetry := shouldRetry;
              custom_getBackoff := getBackoff;
              custom_maxRetries := maxRetries |} in
  {| ShouldRetry := customRetryPolicy_ShouldRetry p;
     GetBackoff := customRetryPolicy_GetBackoff p |}.

(* ===================================================================== *)
(** ** client.go: the client and its transport *)
(* ===================================================================== *)

(** The request handed to [httpClient.Do]. [Params] are the query
    parameters added to the URL; [Body] is the marshalled payload, [None]
    for a nil reader. *)
Record HttpRequest : Type := mkHttpRequest {
  Method : string;
  URL : string;
  Header : gmap string string;
  Params : gmap string string;
  Body : option string
}.

(** What the executor uses of an [http.Response] once its body has been
    read in full: the status code, the headers (first value of each, under
    its canonical name) and the body bytes. *)
Record HttpResponse : Type := mkHttpResponse {
  resp_StatusCode : Z;
  resp_Header : gmap string string;
  resp_Body : string
}.

(** [resp.Header.Get(key)]: the empty string when the header is absent. *)
Definition Header_Get (h : gmap string string) (key : string) : string :=
  default EmptyString (h !! key).

(** One exchange with the server. *)
Inductive Exchange : Type :=
| DoFailed (err : error)
| ReadFailed (err : error)
| Received (resp : HttpResponse).

(** The [http.Client] of the SDK client, as the executor sees it: the
    outcome of [Do] followed by [io.ReadAll] on the response body, for the
    request sent after [n] earlier ones of the same call. *)
Definition HTTPClient : Type := nat -> HttpRequest -> Exchange.

Record Client : Type := mkClient {
  apiKey : string;
  baseURL : string;
  httpClient : HTTPClient;
  maxRetries : Z;
  timeout : Duration;
  retryPolicy : RetryPolicy
}.

Definition DefaultBaseURL : string := "https://api.memu.so".
Definition DefaultTimeout : Duration := 60 * Second.
Definition DefaultPollInterval : Duration := 2 * Second.
Definition DefaultMaxRetries : Z := 3.

(** *** options.go *)

Definition Option : Type := Client -> Client.

Definition WithBaseURL (url : string) : Option := fun c =>
  {| apiKey := apiKey c; baseURL := url; httpClient := httpClient c;
     maxRetries := maxRetries c; timeout := timeout c; retryPolicy := retryPolicy c |}.

Definition WithTimeout (t : Duration) : Option := fun c =>
  {| apiKey := apiKey c; baseURL := baseURL c; httpClient := httpClient c;
     maxRetries := maxRetries c; timeout := t; retryPolicy := retryPolicy c |}.

Definition WithMaxRetries (retries : Z) : Option := fun c =>
  {| apiKey := apiKey c; baseURL := baseURL c; httpClient := httpClient c;
     maxRetries := retries; timeout := timeout c; retryPolicy := retryPolicy c |}.

Definition WithHTTPClient (client : HTTPClient) : Option := fun c =>
  {| apiKey := apiKey c; baseURL := baseURL c; httpClient := client;
     maxRetries := maxRetries c; timeout := timeout c; retryPolicy := retryPolicy c |}.

Definition WithRetryPolicy (policy : RetryPolicy) : Option := fun c =>
  {| apiKey := apiKey c; baseURL := baseURL c; httpClient := httpClient c;
     maxRetries := maxRetries c; timeout := timeout c; retryPolicy := policy |}.

(** *** The request executor *)

(** The standard-library routines called by [request]. *)
Record StdLib : Type := mkStdLib {
  (** [json.Unmarshal(data, &result)] with [result] a nil map. *)
  json_Unmarshal : string -> Decoded;
  (** [strconv.ParseFloat(s, 64)]: [None] when it returns an error. *)
  strconv_ParseFloat : string -> option float64;
  (** [http.NewRequestWithContext(ctx, method, url, body)]: the error it
      returns, [None] when the request is built. *)
  http_NewRequest : string -> string -> option error
}.

(** The [body] argument of [request] is an arbitrary Go value that the
    executor only ever hands to [json.Marshal]; it is represented by what
    [json.Marshal] returns for it. *)
Inductive Marshalled : Type :=
| MarshalError (err : error)
| MarshalOk (jsonData : string).

(** The two results of [request]: [(result, nil)] or [(nil, err)]. *)
Inductive Result : Type :=
| Ok (result : payload)
| Fail (err : error).

(** What a call has done so far: the requests passed to [httpClient.Do]
    and the durations passed to [time.Sleep], oldest first. *)
Record World : Type := mkWorld {
  sent : list HttpRequest;
  slept : list Duration
}.

Definition World_init : World := {| sent := []; slept := [] |}.

Definition send (req : HttpRequest) (w : World) : World :=
  {| sent := sent w ++ [req]; slept := slept w |}.

Definition Sleep (d : Duration) (w : World) : World :=
  {| sent := sent w; slept := slept w ++ [d] |}.

(** How one pass through the loop body ends: [continue] or [return]. *)
Inductive Control : Type :=
| Continue
| Return (r : Result).

Definition defaultHeaders (c : Client) : gmap string string :=
  {[ "Authorization" := "Bearer " +:+ apiKey c;
     "Content-Type" := "application/json";
     "User-Agent" := "memu-go-sdk/1.0.0" ]}.

(** [raiseForStatus]. *)
Definition raiseForStatus (statusCode : Z) (path : string) (response : payload) : error :=
  let status := Some statusCode in
  if statusCode =? 401 then NewAuthenticationError status response
  else if statusCode =? 404 then NewNotFoundError path status response
  else if statusCode =? 422 then NewValidationError status response
  else NewClientError ("HTTP " +:+ pretty statusCode +:+ ": " +:+ path) status response.

Section Request.

Variable lib : StdLib.
Variable c : Client.
Variables (method path : string) (body : option Marshalled) (params : gmap string string).

(** The "Parse response" block: no decoding of an empty body; a body
    that does not decode is kept under the key "raw". *)
Definition parseResponse (respBody : string) : payload :=
  match respBody with
  | EmptyString => None
  | String _ _ =>
      match json_Unmarshal lib respBody with
      | DecodeError => Some {[ "raw" := JString respBody ]}
      | DecodedTo result => result
      end
  end.

(** The "Handle rate limiting" block's wait time. *)
Definition waitTime (attempt : Z) (resp : HttpResponse) : Duration :=
  let retryAfter := Header_Get (resp_Header resp) "Retry-After" in
  if bool_decide (retryAfter <> EmptyString) then
    match strconv_ParseFloat lib retryAfter with
    | Some seconds => Float64.to_int64 (Float64.mul seconds (Float64.of_int64 Second))
    | None => 0
    end
  else GetBackoff (retryPolicy c) attempt.

(** The part of the loop body that follows a fully read response. *)
Definition dispatch (attempt : Z) (resp : HttpResponse) (w : World) : Control * World :=
  let respBody := resp_Body resp in
  let result := parseResponse respBody in
  if resp_StatusCode resp =? 429 then
    let waitTime := waitTime attempt resp in
    if ShouldRetry (retryPolicy c) attempt (resp_StatusCode resp) None then
      (Continue, Sleep waitTime w)
    else
      let retryAfterFloat :=
        Float64.div (Float64.of_int64 waitTime) (Float64.of_int64 Second) in
      let statusCode := resp_StatusCode resp in
      (Return (Fail (NewRateLimitError "rate limit exceeded"
                       (Some retryAfterFloat) (Some statusCode) result)), w)
  else if 500 <=? resp_StatusCode resp then
    if ShouldRetry (retryPolicy c) attempt (resp_StatusCode resp) None then
      (Continue, Sleep (GetBackoff (retryPolicy c) attempt) w)
    else
      let statusCode := resp_StatusCode resp in
      let errorMsg := "server error: " +:+ pretty (resp_StatusCode resp) in
      let errorMsg :=
        match respBody with
        | EmptyString => errorMsg
        | String _ _ =>
            "server error: " +:+ pretty (resp_StatusCode resp)
              +:+ ", response: " +:+ respBody
        end in
      (Return (Fail (NewClientError errorMsg (Some statusCode) result)), w)
  else if 400 <=? resp_StatusCode resp then
    (Return (Fail (raiseForStatus (resp_StatusCode resp) path result)), w)
  else
    (Return (Ok result), w).

(** The request assembled by the "Create request", "Set headers" and
    "Set query parameters" blocks. *)
Definition buildRequest : HttpRequest :=
  let bodyReader :=
    match body with Some (MarshalOk jsonData) => Some jsonData | _ => None end in
  let url := baseURL c +:+ path in
  {| Method := method; URL := url; Header := defaultHeaders c;
     Params := params; Body := bodyReader |}.

(** One pass through the body of the [for] loop of [request]. *)
Definition iteration (attempt : Z) (w : World) : Control * World :=
  match body with
  | Some (MarshalError err) =>
      (Return (Fail (Errorf "failed to marshal request body" err)), w)
  | _ =>
      let url := baseURL c +:+ path in
      match http_NewRequest lib method url with
      | Some err => (Return (Fail (Errorf "failed to create request" err)), w)
      | None =>
          let req := buildRequest in
          match httpClient c (length (sent w)) req with
          | DoFailed err =>
              let w := send req w in
              if ShouldRetry (retryPolicy c) attempt 0 (Some err) then
                (Continue, Sleep (GetBackoff (retryPolicy c) attempt) w)
              else
                (Return (Fail (Errorf ("request failed after "
                                         +:+ pretty (Int64.add attempt 1) +:+ " attempts")
                                 err)), w)
          | ReadFailed err =>
              (Return (Fail (Errorf "failed to read response body" err)), send req w)
          | Received resp => dispatch attempt resp (send req w)
          end
      end
  end.

(** [for attempt := 0; ; attempt++ { ... }], run for at most [fuel]
    passes: [None] when the loop is still running after them. *)
Fixpoint request_loop (fuel : nat) (attempt : Z) (w : World) : option (Result * World) :=
  match fuel with
  | O => None
  | S fuel' =>
      match iteration attempt w with
      | (Return r, w') => Some (r, w')
      | (Continue, w') => request_loop fuel' (Int64.add attempt 1) w'
      end
  end.

Definition request (fuel : nat) : option (Result * World) :=
  request_loop fuel 0 World_init.

End Request.

(** [net/http] accepts a method made of HTTP token characters. *)
Definition is_token_char (ch : ascii) : bool :=
  let n := code ch in
  ((48 <=? n) && (n <=? 57)) || ((65 <=? n) && (n <=? 90)) || ((97 <=? n) && (n <=? 122))
  || bool_decide (n ∈ [33; 35; 36; 37; 38; 39; 42; 43; 45; 46; 94; 95; 96; 124; 126]).

Definition is_control_char (ch : ascii) : bool := (code ch <? 32) || (code ch =? 127).

Fixpoint string_forall (p : ascii -> bool) (s : string) : bool :=
  match s with
  | EmptyString => true
  | String ch s' => p ch && string_forall p s'
  end.

(** Reference instance of [http.NewRequestWithContext] under a non-nil
    context: the method check (the empty method stands for GET) and the
    control-character check of the URL.  The remaining checks of
    [url.Parse] are not reproduced. *)
Definition NewRequest_reference (method url : string) : option error :=
  if negb (string_forall is_token_char method) then
    Some (ForeignError ("net/http: invalid method " +:+ quoted method))
  else if negb (string_forall (fun ch => negb (is_control_char ch)) url) then
    Some (Errorf ("parse " +:+ quoted url)
            (ForeignError "net/url: invalid control character in URL"))
  else None.

(** The reference instance of the standard-library routines. *)
Definition reference_lib : StdLib :=
  {| json_Unmarshal := JsonText.Unmarshal;
     strconv_ParseFloat := ParseFloat_decimal;
     http_NewRequest := NewRequest_reference |}.

(** The error [json.Marshal] returned for the body, if any. *)
Definition marshal_failure (body : option Marshalled) : option error :=
  match body with
  | Some (MarshalError err) => Some err
  | _ => None
  end.

(** *** Sample clients and transports *)

Definition response (status : Z) (header : gmap string string) (body : string) : HttpResponse :=
  {| resp_StatusCode := status; resp_Header := header; resp_Body := body |}.

(** A transport that answers the n-th request of a call with the n-th
    response of a script, and fails to connect once the script is
    exhausted. *)
Definition scripted (script : list HttpResponse) : HTTPClient := fun n _ =>
  match script !! n with
  | Some r => Received r
  | None => DoFailed (ForeignError "dial tcp: connection refused")
  end.

(** The struct literal of [NewClient]: the client before any option is
    applied, on the transport [h]. *)
Definition defaultClient (key : string) (h : HTTPClient) : Client :=
  {| apiKey := key;
     baseURL := DefaultBaseURL;
     httpClient := h;
     maxRetries := DefaultMaxRetries;
     timeout := DefaultTimeout;
     retryPolicy := NewDefaultRetryPolicy None |}.

(** The text [{"task_id":"t1","status":"PENDING"}], written with
    [quoted] for its string literals. *)
Definition pending_task_body : string :=
  "{" +:+ quoted "task_id" +:+ ":" +:+ quoted "t1" +:+ ","
      +:+ quoted "status" +:+ ":" +:+ quoted "PENDING" +:+ "}".

(** The HTTP-date form of a Retry-After value. *)
Definition http_date : string := "Wed, 21 Oct 2015 07:28:00 GMT".

(** The decoded body holds a non-empty string under the key "message". *)
Definition has_message (response : payload) (msg : string) : Prop :=
  exists m, response = Some m /\ m !! "message" = Some (JString msg) /\ msg <> EmptyString.

(* ===================================================================== *)
(** ** models.go: requests, results and their validation *)
(* ===================================================================== *)

(** [fmt.Errorf] with a constant text: an error that is its text. *)
Definition plain_error (text : string) : error := ForeignError text.

(** A Go result pair [(value, error)] with exactly one side set. *)
Inductive Outcome (A : Type) : Type :=
| Value (a : A)
| Failure (err : error).
Arguments Value {A} a.
Arguments Failure {A} err.

Definition TaskStatusPending : string := "PENDING".
Definition TaskStatusProcessing : string := "PROCESSING".
Definition TaskStatusCompleted : string := "COMPLETED".
Definition TaskStatusSuccess : string := "SUCCESS".
Definition TaskStatusFailed : string := "FAILED".

Module MemoryResource.
Record t : Type := mk {
  Modality : option string;
  ResourceURL : option string;
  Caption : option string;
  Content : payload;
  Metadata : payload
}.
End MemoryResource.

Module MemoryItem.
Record t : Type := mk {
  Content : option string;
  MemoryType : option string
}.
End MemoryItem.

Module MemoryCategory.
Record t : Type := mk {
  Name : option string;
  Description : option string;
  Summary : option string;
  UserID : option string;
  AgentID : option string
}.
End MemoryCategory.

Module TaskStatus.
Record t : Type := mk {
  TaskID : string;
  Status : string;
  Message : string;
  DetailInfo : string
}.
End TaskStatus.

(** Slices of pointers ([[]*MemoryCategory] and the like) are lists of
    options, a nil pointer being [None]; a nil slice and an empty one
    both are the empty list. *)
Module RetrieveResult.
Record t : Type := mk {
  RewrittenQuery : option string;
  Categories : list (option MemoryCategory.t);
  Items : list (option MemoryItem.t);
  Resources : list (option MemoryResource.t)
}.
End RetrieveResult.

Module ConversationMessage.
Record t : Type := mk {
  Role : string;
  Content : string;
  Name : option string;
  CreatedAt : option string
}.
End ConversationMessage.

(** The Go values the SDK puts in a request payload: strings, optional
    strings ([*string]), conversations, and, for the [Query] of a retrieve
    request, the nil interface or any other value, the latter represented
    by what [json.Marshal] returns for it. *)
Inductive GoValue : Type :=
| GoNil
| GoString (s : string)
| GoStringPtr (p : option string)
| GoMessages (l : list ConversationMessage.t)
| GoOther (encoding : Marshalled).

Module MemorizeRequest.
Record t : Type := mk {
  Conversation : list ConversationMessage.t;
  ConversationText : option string;
  UserID : string;
  AgentID : string;
  UserName : string;
  AgentName : string;
  SessionDate : option string
}.

(** [Validate]: [None] is the nil error. *)
Definition Validate (r : t) : option error :=
  if decide (UserID r = EmptyString) then
    Some (plain_error "Memorize: UserID is required")
  else if decide (AgentID r = EmptyString) then
    Some (plain_error "Memorize: AgentID is required")
  else if (length (Conversation r) =? 0)%nat && bool_decide (ConversationText r = None) then
    Some (plain_error "Memorize: either Conversation or ConversationText must be provided")
  else if (0 <? length (Conversation r))%nat && (length (Conversation r) <? 3)%nat then
    Some (plain_error "Memorize: Conversation must contain at least 3 messages")
  else None.
End MemorizeRequest.

Module MemorizeResult.
Record t : Type := mk {
  TaskID : option string;
  Status : option string;
  Message : option string
}.
End MemorizeResult.

Module RetrieveRequest.
Record t : Type := mk {
  Query : GoValue;
  UserID : string;
  AgentID : string
}.

Definition Validate (r : t) : option error :=
  if match Query r with GoNil => true | _ => false end then
    Some (plain_error "Retrieve: Query is required")
  else if decide (UserID r = EmptyString) then
    Some (plain_error "Retrieve: UserID is required")
  else if decide (AgentID r = EmptyString) then
    Some (plain_error "Retrieve: AgentID is required")
  else None.
End RetrieveRequest.

Module ListCategoriesRequest.
Record t : Type := mk {
  UserID : string;
  AgentID : option string
}.

Definition Validate (r : t) : option error :=
  if decide (UserID r = EmptyString) then
    Some (plain_error "ListCategories: UserID is required")
  else None.
End ListCategoriesRequest.

(* ===================================================================== *)
(** ** client.go: the four API methods *)
(* ===================================================================== *)

(** The [encoding/json] routines the API methods call, beside those of
    the executor: [json.Marshal] on a request payload, on a decoded
    object and on a decoded array, and [json.Unmarshal] into a zero value
    of each result type. *)
Record JsonCodec : Type := mkJsonCodec {
  Marshal_payload : gmap string GoValue -> Marshalled;
  Marshal_object : payload -> Marshalled;
  Marshal_array : list json -> Marshalled;
  Unmarshal_TaskStatus : string -> Outcome TaskStatus.t;
  Unmarshal_categories : string -> Outcome (list (option MemoryCategory.t));
  Unmarshal_items : string -> Outcome (list (option MemoryItem.t));
  Unmarshal_resources : string -> Outcome (list (option MemoryResource.t))
}.

(** [parseJSONObject[T](data)]. [data] is an [interface{}]: [None] is the
    nil interface, [Some r] an interface holding the map [r], which is not
    nil even when [r] is the nil map.  The result is the pair (pointer,
    error), a nil pointer being [None]. *)
Definition parseJSONObject {T : Type} (marshal : payload -> Marshalled)
    (unmarshal : string -> Outcome T) (data : option payload) : Outcome (option T) :=
  match data with
  | None => Value None
  | Some r =>
      match marshal r with
      | MarshalError err => Failure (Errorf "failed to marshal object" err)
      | MarshalOk jsonBytes =>
          match unmarshal jsonBytes with
          | Failure err => Failure (Errorf "failed to unmarshal object" err)
          | Value obj => Value (Some obj)
          end
      end
  end.

(** [parseJSONArray[T](data)]. *)
Definition parseJSONArray {T : Type} (marshal : list json -> Marshalled)
    (unmarshal : string -> Outcome (list (option T))) (data : list json)
    : Outcome (list (option T)) :=
  if (length data =? 0)%nat then Value []
  else
    match marshal data with
    | MarshalError err => Failure (Errorf "failed to marshal array" err)
    | MarshalOk jsonBytes =>
        match unmarshal jsonBytes with
        | Failure err => Failure (Errorf "failed to unmarshal array" err)
        | Value result => Value result
        end
    end.

(** [buildMemorizePayload]. *)
Definition buildMemorizePayload (req : MemorizeRequest.t) : gmap string GoValue :=
  let payload : gmap string GoValue :=
    {[ "user_id" := GoString (MemorizeRequest.UserID req);
       "agent_id" := GoString (MemorizeRequest.AgentID req) ]} in
  let payload :=
    if decide (MemorizeRequest.UserName req <> EmptyString)
    then <[ "user_name" := GoString (MemorizeRequest.UserName req) ]> payload
    else <[ "user_name" := GoString "User" ]> payload in
  let payload :=
    if decide (MemorizeRequest.AgentName req <> EmptyString)
    then <[ "agent_name" := GoString (MemorizeRequest.AgentName req) ]> payload
    else <[ "agent_name" := GoString "Assistant" ]> payload in
  let payload :=
    if (0 <? length (MemorizeRequest.Conversation req))%nat
    then <[ "conversation" := GoMessages (MemorizeRequest.Conversation req) ]> payload
    else
      match MemorizeRequest.ConversationText req with
      | Some text => <[ "conversation_text" := GoString text ]> payload
      | None => payload
      end in
  let payload :=
    match MemorizeRequest.SessionDate req with
    | Some date => <[ "session_date" := GoString date ]> payload
    | None => payload
    end in
  payload.

(** [v, ok := response[key].(string)]: the string under [key], if the
    map holds one there. *)
Definition string_at (response : payload) (key : string) : option string :=
  match response with
  | Some m =>
      match m !! key with
      | Some (JString s) => Some s
      | _ => None
      end
  | None => None
  end.

(** [v, ok := response[key].([]interface{})]. *)
Definition array_at (response : payload) (key : string) : option (list json) :=
  match response with
  | Some m =>
      match m !! key with
      | Some (JArray l) => Some l
      | _ => None
      end
  | None => None
  end.

Section API.

Variable lib : StdLib.
Variable codec : JsonCodec.
Variable c : Client.

(** The API methods return their result pair and the world the call
    leaves behind; [None] when the executor is still looping after [fuel]
    passes.  A request argument is a pointer: [None] is nil. *)

Definition Memorize (req : option MemorizeRequest.t) (fuel : nat)
    : option (Outcome MemorizeResult.t * World) :=
  match req with
  | None => Some (Failure (plain_error "Memorize: request is required"), World_init)
  | Some req =>
      match MemorizeRequest.Validate req with
      | Some err => Some (Failure err, World_init)
      | None =>
          let payload := buildMemorizePayload req in
          match request lib c "POST" "/api/v3/memory/memorize"
                  (Some (Marshal_payload codec payload)) ∅ fuel with
          | None => None
          | Some (Fail err, w) => Some (Failure err, w)
          | Some (Ok response, w) =>
              let result :=
                {| MemorizeResult.TaskID := string_at response "task_id";
                   MemorizeResult.Status := string_at response "status";
                   MemorizeResult.Message := string_at response "message" |} in
              Some (Value result, w)
          end
      end
  end.

Definition GetTaskStatus (taskID : string) (fuel : nat)
    : option (Outcome (option TaskStatus.t) * World) :=
  if decide (taskID = EmptyString) then
    Some (Failure (plain_error "taskID is required"), World_init)
  else
    let path := "/api/v3/memory/memorize/status/" +:+ taskID in
    match request lib c "GET" path None ∅ fuel with
    | None => None
    | Some (Fail err, w) => Some (Failure err, w)
    | Some (Ok response, w) =>
        match parseJSONObject (Marshal_object codec) (Unmarshal_TaskStatus codec)
                (Some response) with
        | Failure err => Some (Failure (Errorf "failed to parse task status" err), w)
        | Value status => Some (Value status, w)
        end
    end.

Definition ListCategories (req : option ListCategoriesRequest.t) (fuel : nat)
    : option (Outcome (list (option MemoryCategory.t)) * World) :=
  match req with
  | None => Some (Failure (plain_error "ListCategories: request is required"), World_init)
  | Some req =>
      match ListCategoriesRequest.Validate req with
      | Some err => Some (Failure err, World_init)
      | None =>
          let payload : gmap string GoValue :=
            {[ "user_id" := GoString (ListCategoriesRequest.UserID req);
               "agent_id" := GoStringPtr (ListCategoriesRequest.AgentID req) ]} in
          match request lib c "POST" "/api/v3/memory/categories"
                  (Some (Marshal_payload codec payload)) ∅ fuel with
          | None => None
          | Some (Fail err, w) => Some (Failure err, w)
          | Some (Ok response, w) =>
              (* categoriesData: the value under "categories", or else the
                 response map itself *)
              let categoriesData : json + option (gmap string json) :=
                match response with
                | Some m =>
                    match m !! "categories" with
                    | Some v => inl v
                    | None => inr response
                    end
                | None => inr response
                end in
              match categoriesData with
              | inl (JArray categoriesList) =>
                  match parseJSONArray (Marshal_array codec) (Unmarshal_categories codec)
                          categoriesList with
                  | Failure err => Some (Failure (Errorf "failed to parse categories" err), w)
                  | Value parsedCategories => Some (Value parsedCategories, w)
                  end
              | _ => Some (Value [], w)
              end
          end
      end
  end.

Definition Retrieve (req : option RetrieveRequest.t) (fuel : nat)
    : option (Outcome RetrieveResult.t * World) :=
  match req with
  | None => Some (Failure (plain_error "Retrieve: request is required"), World_init)
  | Some req =>
      match RetrieveRequest.Validate req with
      | Some err => Some (Failure err, World_init)
      | None =>
          let payload : gmap string GoValue :=
            {[ "user_id" := GoString (RetrieveRequest.UserID req);
               "agent_id" := GoString (RetrieveRequest.AgentID req);
               "query" := RetrieveRequest.Query req ]} in
          match request lib c "POST" "/api/v3/memory/retrieve"
                  (Some (Marshal_payload codec payload)) ∅ fuel with
          | None => None
          | Some (Fail err, w) => Some (Failure err, w)
          | Some (Ok response, w) =>
              let categories :=
                match array_at response "categories" with
                | Some l => parseJSONArray (Marshal_array codec) (Unmarshal_categories codec) l
                | None => Value []
                end in
              match categories with
              | Failure err => Some (Failure (Errorf "failed to parse categories" err), w)
              | Value parsedCategories =>
                  let items :=
                    match array_at response "items" with
                    | Some l => parseJSONArray (Marshal_array codec) (Unmarshal_items codec) l
                    | None => Value []
                    end in
                  match items with
                  | Failure err => Some (Failure (Errorf "failed to parse items" err), w)
                  | Value parsedItems =>
                      let resources :=
                        match array_at response "resources" with
                        | Some l =>
                            parseJSONArray (Marshal_array codec)
                              (Unmarshal_resources codec) l
                        | None => Value []
                        end in
                      match resources with
                      | Failure err =>
                          Some (Failure (Errorf "failed to parse resources" err), w)
                      | Value parsedResources =>
                          Some (Value
                                  {| RetrieveResult.RewrittenQuery :=
                                       string_at response "rewritten_query";
                                     RetrieveResult.Categories := parsedCategories;
                                     RetrieveResult.Items := parsedItems;
                                     RetrieveResult.Resources := parsedResources |}, w)
                      end
                  end
              end
          end
      end
  end.

End API.

(** *** Facts about policies and traces used in the statements *)

(** The policy never retries from attempt [n] on. *)
Definition has_ceiling (p : RetryPolicy) (n : Z) : Prop :=
  forall attempt statusCode err, n <= attempt -> ShouldRetry p attempt statusCode err = false.

(** A sample codec for examples: payloads and decoded values all marshal
    to the empty object, which decodes to zero values. *)
Definition sample_codec : JsonCodec :=
  {| Marshal_payload := fun _ => MarshalOk "{}";
     Marshal_object := fun _ => MarshalOk "{}";
     Marshal_array := fun _ => MarshalOk "[]";
     Unmarshal_TaskStatus := fun _ =>
       Value (TaskStatus.mk EmptyString EmptyString EmptyString EmptyString);
     Unmarshal_categories := fun _ => Value [];
     Unmarshal_items := fun _ => Value [];
     Unmarshal_resources := fun _ => Value [] |}.

(* ===================================================================== *)
(** * Properties *)
(* ===================================================================== *)

(** ** Machine arithmetic *)

Lemma wrap_in_range (z : Z) : Int64.in_range z -> Int64.wrap z = z.
Proof.
  unfold Int64.in_range, Int64.wrap, Int64.min_int, Int64.max_int,
    Int64.half_modulus, Int64.modulus.
  intros Hz. rewrite Z.mod_small; lia.
Qed.

Lemma to_uint_nonneg (z : Z) : 0 <= z <= Int64.max_int -> Int64.to_uint z = z.
Proof.
  unfold Int64.to_uint, Int64.max_int, Int64.half_modulus, Int64.modulus.
  intros Hz. apply Z.mod_small. lia.
Qed.

Lemma shl_one (n : Z) : 0 <= n < 63 -> Int64.shl 1 n = 2 ^ n.
Proof.
  intros Hn. unfold Int64.shl.
  destruct (Z.ltb_spec n 64) as [_ | ?]; [| lia].
  rewrite Z.shiftl_1_l. apply wrap_in_range.
  unfold Int64.in_range, Int64.min_int, Int64.max_int, Int64.half_modulus.
  assert (2 ^ n < 2 ^ 63) by (apply Z.pow_lt_mono_r; lia).
  assert (0 < 2 ^ n) by (apply Z.pow_pos_nonneg; lia).
  lia.
Qed.

(** Where the product [BaseDelay * 2^attempt] fits in an int64, the
    default policy's backoff is the capped exponential. *)
Lemma GetBackoff_without_overflow (config : RetryConfig) (attempt : Z) :
  0 <= attempt < 63 ->
  0 <= BaseDelay config ->
  BaseDelay config * 2 ^ attempt <= Int64.max_int ->
  defaultRetryPolicy_GetBackoff config attempt
    = Z.min (BaseDelay config * 2 ^ attempt) (MaxDelay config).
Proof.
  intros Hn Hb Hfit. unfold defaultRetryPolicy_GetBackoff.
  rewrite to_uint_nonneg by (unfold Int64.max_int, Int64.half_modulus; lia).
  rewrite shl_one by done.
  assert (0 < 2 ^ attempt) by (apply Z.pow_pos_nonneg; lia).
  unfold Int64.mul. rewrite wrap_in_range.
  - destruct (Z.ltb_spec (MaxDelay config) (BaseDelay config * 2 ^ attempt)); lia.
  - unfold Int64.in_range, Int64.min_int, Int64.half_modulus. split; [nia | done].
Qed.

Lemma GetBackoff_without_overflow_witness :
  defaultRetryPolicy_GetBackoff DefaultRetryConfig 10
    = Z.min (BaseDelay DefaultRetryConfig * 2 ^ 10) (MaxDelay DefaultRetryConfig).
Proof.
  apply (GetBackoff_without_overflow DefaultRetryConfig 10); vm_compute; try split; congruence.
Defined.

(** C2 (evaluation at the failing attempt). With the default
    configuration (base delay 1s, ceiling 32s) the backoff saturates at
    32s for attempt 10, as the claim says, but at attempt 34 the int64
    product 1e9 * 2^34 wraps around: [GetBackoff] returns a negative
    duration, which the ceiling test lets through, where the exact
    [min(baseDelay * 2^34, maxDelay)] is 32s. *)
Theorem GetBackoff_default_wraps_at_34 :
  GetBackoff (NewDefaultRetryPolicy None) 10 = 32 * Second
  /\ GetBackoff (NewDefaultRetryPolicy None) 34 = -1266874889709551616
  /\ Z.min (BaseDelay DefaultRetryConfig * 2 ^ 34) (MaxDelay DefaultRetryConfig) = 32 * Second.
Proof. vm_compute. auto. Qed.

(** ** Retry decisions *)

Lemma default_codes_lookup (statusCode : Z) :
  RetryableStatusCodes DefaultRetryConfig !! statusCode = Some true
  <-> statusCode ∈ [429; 500; 502; 503; 504].
Proof.
  unfold DefaultRetryConfig; simpl.
  rewrite !lookup_insert, lookup_singleton.
  rewrite !elem_of_cons, elem_of_nil.
  repeat case_decide; subst; split; first [ done | tauto | intros; lia ].
Qed.

(** C4. No policy built by the SDK retries once [attempt >= maxRetries]:
    the default policy, the custom policy (whatever its function says) and
    the no-retry policy.  Below the ceiling the default policy retries on
    every non-nil error whatever the status code, and on a nil error
    exactly when the status code is positive and mapped to true in the
    retryable set, which by default holds 429, 500, 502, 503 and 504. *)
Theorem ShouldRetry_ceiling_and_default_decision
    (config : RetryConfig) (maxRetries : Z) (f : CustomRetryFunc) (g : CustomBackoffFunc)
    (attempt statusCode : Z) (err : option error) :
  (MaxRetries config <= attempt ->
     ShouldRetry (NewDefaultRetryPolicy (Some config)) attempt statusCode err = false)
  /\ (maxRetries <= attempt ->
        ShouldRetry (NewCustomRetryPolicy maxRetries f g) attempt statusCode err = false)
  /\ ShouldRetry NewNoRetryPolicy attempt statusCode err = false
  /\ (attempt < MaxRetries config -> err <> None ->
        ShouldRetry (NewDefaultRetryPolicy (Some config)) attempt statusCode err = true)
  /\ (attempt < MaxRetries config -> err = None ->
        (ShouldRetry (NewDefaultRetryPolicy (Some config)) attempt statusCode err = true
         <-> 0 < statusCode /\ RetryableStatusCodes config !! statusCode = Some true))
  /\ (MaxRetries DefaultRetryConfig = 3
      /\ (RetryableStatusCodes DefaultRetryConfig !! statusCode = Some true
          <-> statusCode ∈ [429; 500; 502; 503; 504])).
Proof.
  simpl. unfold defaultRetryPolicy_ShouldRetry, customRetryPolicy_ShouldRetry; simpl.
  split; [| split; [| split; [| split; [| split; [| split]]]]].
  - intros H. destruct (Z.leb_spec (MaxRetries config) attempt); [done | lia].
  - intros H. destruct (Z.leb_spec maxRetries attempt); [done | lia].
  - reflexivity.
  - intros H Herr. destruct (Z.leb_spec (MaxRetries config) attempt); [lia |].
    by rewrite bool_decide_eq_true_2.
  - intros H ->. destruct (Z.leb_spec (MaxRetries config) attempt); [lia |].
    rewrite bool_decide_eq_false_2 by (intros Hn; by apply Hn).
    unfold map_index.
    destruct (Z.ltb_spec 0 statusCode);
      destruct (RetryableStatusCodes config !! statusCode) as [[]|]; simpl;
      split; first [ done | intros [? ?]; first [ done | lia ] | split; done ].
  - reflexivity.
  - apply default_codes_lookup.
Qed.

Lemma ShouldRetry_ceiling_and_default_decision_witness :
  ShouldRetry (NewDefaultRetryPolicy (Some DefaultRetryConfig)) 3 503 None = false
  /\ ShouldRetry (NewCustomRetryPolicy 5 (fun _ _ _ => true) (fun _ => Second)) 5 503 None = false
  /\ ShouldRetry (NewDefaultRetryPolicy (Some DefaultRetryConfig)) 2 404
       (Some (ForeignError "connection reset")) = true
  /\ ShouldRetry (NewDefaultRetryPolicy (Some DefaultRetryConfig)) 2 503 None = true.
Proof.
  pose proof (ShouldRetry_ceiling_and_default_decision DefaultRetryConfig 5
                (fun _ _ _ => true) (fun _ => Second) 3 503 None) as (H1 & _).
  pose proof (ShouldRetry_ceiling_and_default_decision DefaultRetryConfig 5
                (fun _ _ _ => true) (fun _ => Second) 5 503 None) as (_ & H2 & _).
  pose proof (ShouldRetry_ceiling_and_default_decision DefaultRetryConfig 5
                (fun _ _ _ => true) (fun _ => Second) 2 404
                (Some (ForeignError "connection reset"))) as (_ & _ & _ & H3 & _).
  pose proof (ShouldRetry_ceiling_and_default_decision DefaultRetryConfig 5
                (fun _ _ _ => true) (fun _ => Second) 2 503 None) as (_ & _ & _ & _ & H4 & _).
  split; [apply H1; vm_compute; congruence |].
  split; [apply H2; vm_compute; congruence |].
  split; [apply H3; [reflexivity | congruence] |].
  apply H4; [reflexivity | reflexivity |].
  split; [reflexivity | reflexivity].
Defined.

(** ** The loop and its passes *)

Section RequestFacts.

Variable lib : StdLib.
Variable c : Client.
Variables (method path : string) (body : option Marshalled) (params : gmap string string).

Local Abbreviation pass := (iteration lib c method path body params).
Local Abbreviation loop := (request_loop lib c method path body params).
Local Abbreviation on_response := (dispatch lib c path).
Local Abbreviation req := (buildRequest c method path body params).

Lemma request_loop_return fuel attempt w r w' :
  pass attempt w = (Return r, w') ->
  loop (S fuel) attempt w = Some (r, w').
Proof. intros H. simpl. by rewrite H. Qed.

Lemma request_loop_continue fuel attempt w w' :
  pass attempt w = (Continue, w') ->
  loop (S fuel) attempt w = loop fuel (Int64.add attempt 1) w'.
Proof. intros H. simpl. by rewrite H. Qed.

(** More fuel never changes a result already reached. *)
Lemma request_loop_more_fuel fuel : forall extra attempt w out,
  loop fuel attempt w = Some out ->
  loop (fuel + extra) attempt w = Some out.
Proof.
  induction fuel as [| fuel IH]; intros extra attempt w out H; [discriminate |].
  simpl in *. destruct (pass attempt w) as [[| r] w']; [| done].
  by apply IH.
Qed.

(** A pass that gets a response hands it to the status dispatch. *)
Lemma iteration_received attempt w resp :
  marshal_failure body = None ->
  http_NewRequest lib method (baseURL c +:+ path) = None ->
  httpClient c (length (sent w)) req = Received resp ->
  pass attempt w = on_response attempt resp (send req w).
Proof.
  intros Hm Hn Hd. unfold iteration.
  destruct body as [[err | data] |]; simpl in Hm; try discriminate;
    by rewrite Hn, Hd.
Qed.

Lemma dispatch_success attempt w resp :
  resp_StatusCode resp < 400 ->
  on_response attempt resp w = (Return (Ok (parseResponse lib (resp_Body resp))), w).
Proof.
  intros H. unfold dispatch.
  destruct (Z.eqb_spec (resp_StatusCode resp) 429); [lia |].
  destruct (Z.leb_spec 500 (resp_StatusCode resp)); [lia |].
  destruct (Z.leb_spec 400 (resp_StatusCode resp)); [lia | done].
Qed.

Lemma dispatch_client_error attempt w resp :
  400 <= resp_StatusCode resp < 500 ->
  resp_StatusCode resp <> 429 ->
  on_response attempt resp w
    = (Return (Fail (raiseForStatus (resp_StatusCode resp) path
                       (parseResponse lib (resp_Body resp)))), w).
Proof.
  intros H H429. unfold dispatch.
  destruct (Z.eqb_spec (resp_StatusCode resp) 429); [done |].
  destruct (Z.leb_spec 500 (resp_StatusCode resp)); [lia |].
  destruct (Z.leb_spec 400 (resp_StatusCode resp)); [done | lia].
Qed.

Lemma dispatch_server_retry attempt w resp :
  500 <= resp_StatusCode resp ->
  ShouldRetry (retryPolicy c) attempt (resp_StatusCode resp) None = true ->
  on_response attempt resp w = (Continue, Sleep (GetBackoff (retryPolicy c) attempt) w).
Proof.
  intros H Hr. unfold dispatch.
  destruct (Z.eqb_spec (resp_StatusCode resp) 429); [lia |].
  destruct (Z.leb_spec 500 (resp_StatusCode resp)); [| lia].
  by rewrite Hr.
Qed.

Lemma dispatch_server_final attempt w resp :
  500 <= resp_StatusCode resp ->
  ShouldRetry (retryPolicy c) attempt (resp_StatusCode resp) None = false ->
  on_response attempt resp w
    = (Return (Fail (NewClientError
                       (match resp_Body resp with
                        | EmptyString => "server error: " +:+ pretty (resp_StatusCode resp)
                        | String _ _ =>
                            "server error: " +:+ pretty (resp_StatusCode resp)
                              +:+ ", response: " +:+ resp_Body resp
                        end)
                       (Some (resp_StatusCode resp))
                       (parseResponse lib (resp_Body resp)))), w).
Proof.
  intros H Hr. unfold dispatch.
  destruct (Z.eqb_spec (resp_StatusCode resp) 429); [lia |].
  destruct (Z.leb_spec 500 (resp_StatusCode resp)); [| lia].
  by rewrite Hr.
Qed.

Lemma dispatch_rate_limit_retry attempt w resp :
  resp_StatusCode resp = 429 ->
  ShouldRetry (retryPolicy c) attempt 429 None = true ->
  on_response attempt resp w = (Continue, Sleep (waitTime lib c attempt resp) w).
Proof.
  intros H Hr. unfold dispatch. rewrite H. simpl. by rewrite Hr.
Qed.

Lemma dispatch_rate_limit_final attempt w resp :
  resp_StatusCode resp = 429 ->
  ShouldRetry (retryPolicy c) attempt 429 None = false ->
  on_response attempt resp w
    = (Return (Fail (NewRateLimitError "rate limit exceeded"
                       (Some (Float64.div (Float64.of_int64 (waitTime lib c attempt resp))
                                (Float64.of_int64 Second)))
                       (Some 429)
                       (parseResponse lib (resp_Body resp)))), w).
Proof.
  intros H Hr. unfold dispatch. rewrite H. simpl. by rewrite Hr.
Qed.

End RequestFacts.

(** The wait time of a 429 response without a Retry-After header is the
    policy's backoff for the attempt. *)
Lemma waitTime_without_header lib c attempt resp :
  resp_Header resp !! "Retry-After" = None ->
  waitTime lib c attempt resp = GetBackoff (retryPolicy c) attempt.
Proof. intros H. unfold waitTime, Header_Get. by rewrite H. Qed.

(** A Retry-After header that [strconv.ParseFloat] rejects leaves the wait
    time at the zero value of its declaration. *)
Lemma waitTime_unparseable_header lib c attempt resp text :
  resp_Header resp !! "Retry-After" = Some text ->
  text <> EmptyString ->
  strconv_ParseFloat lib text = None ->
  waitTime lib c attempt resp = 0.
Proof.
  intros H Hne Hp. unfold waitTime, Header_Get. rewrite H. simpl.
  rewrite bool_decide_eq_true_2 by done. by rewrite Hp.
Qed.

(** A parsed Retry-After header gives the number of seconds times 1e9,
    truncated to whole nanoseconds. *)
Lemma waitTime_parsed_header lib c attempt resp text seconds :
  resp_Header resp !! "Retry-After" = Some text ->
  text <> EmptyString ->
  strconv_ParseFloat lib text = Some seconds ->
  waitTime lib c attempt resp
    = Float64.to_int64 (Float64.mul seconds (Float64.of_int64 Second)).
Proof.
  intros H Hne Hp. unfold waitTime, Header_Get. rewrite H. simpl.
  rewrite bool_decide_eq_true_2 by done. by rewrite Hp.
Qed.

(** ** Terminal outcomes *)

(** C8. A body that [json.Marshal] rejects ends the call on the spot, at
    whatever attempt the pass runs and whatever the retry policy and the
    transport are: the marshalling error comes back wrapped, and the world
    is untouched (no request was sent, no sleep was taken). *)
Theorem request_marshal_failure_is_immediate
    (lib : StdLib) (c : Client) (method path : string) (params : gmap string string)
    (err : error) (fuel : nat) (attempt : Z) (w : World) :
  iteration lib c method path (Some (MarshalError err)) params attempt w
    = (Return (Fail (Errorf "failed to marshal request body" err)), w)
  /\ request_loop lib c method path (Some (MarshalError err)) params (S fuel) attempt w
     = Some (Fail (Errorf "failed to marshal request body" err), w)
  /\ request lib c method path (Some (MarshalError err)) params (S fuel)
     = Some (Fail (Errorf "failed to marshal request body" err),
             {| sent := []; slept := [] |}).
Proof. repeat split. Qed.

(** C6. A response with a 4xx status other than 429 ends the call in the
    pass that receives it, for every retry policy and every attempt
    number: the result is the classifier's error, one request was added
    to the world and no sleep.  For status 401 the error is an
    [AuthenticationError] whose status code is 401. *)
Theorem client_error_is_never_retried
    (lib : StdLib) (c : Client) (method path : string) (body : option Marshalled)
    (params : gmap string string) (fuel : nat) (attempt : Z) (w : World)
    (resp : HttpResponse) :
  marshal_failure body = None ->
  http_NewRequest lib method (baseURL c +:+ path) = None ->
  httpClient c (length (sent w)) (buildRequest c method path body params) = Received resp ->
  400 <= resp_StatusCode resp < 500 ->
  resp_StatusCode resp <> 429 ->
  request_loop lib c method path body params (S fuel) attempt w
    = Some (Fail (raiseForStatus (resp_StatusCode resp) path
                    (parseResponse lib (resp_Body resp))),
            {| sent := sent w ++ [buildRequest c method path body params];
               slept := slept w |})
  /\ (resp_StatusCode resp = 401 ->
      exists e,
        raiseForStatus (resp_StatusCode resp) path (parseResponse lib (resp_Body resp))
          = EAuthenticationError e
        /\ StatusCode e = Some 401).
Proof.
  intros Hm Hn Hd Hs H429. split.
  - apply request_loop_return.
    rewrite (iteration_received _ _ _ _ _ _ _ _ resp) by done.
    by rewrite dispatch_client_error.
  - intros ->. unfold raiseForStatus, NewAuthenticationError. simpl. eauto.
Qed.

Lemma client_error_is_never_retried_witness :
  request_loop reference_lib
    (WithRetryPolicy (NewCustomRetryPolicy 9 (fun _ _ _ => true) (fun _ => Second))
       (defaultClient "test_key" (scripted [response 401 ∅ EmptyString])))
    "GET" "/api/v3/memory/memorize/status/t1" None ∅ 1 0 World_init
  = Some (Fail (EAuthenticationError
                  {| Message := "Authentication failed. Please check your API key.";
                     StatusCode := Some 401;
                     Response := None |}),
          {| sent := [buildRequest
                        (defaultClient "test_key" (scripted [response 401 ∅ EmptyString]))
                        "GET" "/api/v3/memory/memorize/status/t1" None ∅];
             slept := [] |}).
Proof.
  refine (proj1 (client_error_is_never_retried reference_lib
            (WithRetryPolicy (NewCustomRetryPolicy 9 (fun _ _ _ => true) (fun _ => Second))
               (defaultClient "test_key" (scripted [response 401 ∅ EmptyString])))
            "GET" "/api/v3/memory/memorize/status/t1" None ∅ 0 0 World_init
            (response 401 ∅ EmptyString) _ _ _ _ _)).
  - reflexivity.
  - reflexivity.
  - reflexivity.
  - simpl. lia.
  - simpl. lia.
Defined.

(** ** Server errors under the default policy *)

Lemma default_policy_retries_500 (attempt : Z) :
  0 <= attempt < 3 ->
  ShouldRetry (NewDefaultRetryPolicy None) attempt 500 None = true.
Proof.
  intros H. simpl. unfold defaultRetryPolicy_ShouldRetry. simpl.
  destruct (Z.leb_spec 3 attempt); [lia | reflexivity].
Qed.

Section DefaultPolicyRuns.

Variable lib : StdLib.
Variable c : Client.
Variables (method path : string) (body : option Marshalled) (params : gmap string string).

Local Abbreviation req := (buildRequest c method path body params).

Hypothesis policy_is_default : retryPolicy c = NewDefaultRetryPolicy None.
Hypothesis body_marshals : marshal_failure body = None.
Hypothesis request_builds : http_NewRequest lib method (baseURL c +:+ path) = None.

(** One retried pass on a 500 response, below the ceiling. *)
Lemma pass_500_retried attempt w resp :
  0 <= attempt < 3 ->
  httpClient c (length (sent w)) req = Received resp ->
  resp_StatusCode resp = 500 ->
  iteration lib c method path body params attempt w
    = (Continue,
       {| sent := sent w ++ [req];
          slept := slept w ++ [GetBackoff (NewDefaultRetryPolicy None) attempt] |}).
Proof.
  intros Ha Hd Hs.
  rewrite (iteration_received _ _ _ _ _ _ _ _ resp) by done.
  rewrite dispatch_server_retry; rewrite ?policy_is_default, ?Hs; try done.
  by apply default_policy_retries_500.
Qed.

(** C3. Under the default retry policy (at most 3 retries): when the
    server answers 500, 500, 200, the call sends exactly three requests,
    sleeping 1s and 2s between them, and returns the decoded body of the
    200 response; when it answers 500 four times, the call sends exactly
    [MaxRetries + 1 = 4] requests, sleeping 1s, 2s and 4s, and fails with
    the server-error value (the SDK's [ClientError] with status 500) whose
    message names the status code and, for a non-empty body, quotes the
    raw body of the last response. *)
Theorem default_policy_server_error_runs :
  (forall (r0 r1 r2 : HttpResponse) (fuel : nat),
      httpClient c 0%nat req = Received r0 -> resp_StatusCode r0 = 500 ->
      httpClient c 1%nat req = Received r1 -> resp_StatusCode r1 = 500 ->
      httpClient c 2%nat req = Received r2 -> resp_StatusCode r2 = 200 ->
      (3 <= fuel)%nat ->
      request lib c method path body params fuel
        = Some (Ok (parseResponse lib (resp_Body r2)),
                {| sent := [req; req; req]; slept := [1 * Second; 2 * Second] |}))
  /\ (forall (r0 r1 r2 r3 : HttpResponse) (fuel : nat),
      httpClient c 0%nat req = Received r0 -> resp_StatusCode r0 = 500 ->
      httpClient c 1%nat req = Received r1 -> resp_StatusCode r1 = 500 ->
      httpClient c 2%nat req = Received r2 -> resp_StatusCode r2 = 500 ->
      httpClient c 3%nat req = Received r3 -> resp_StatusCode r3 = 500 ->
      (4 <= fuel)%nat ->
      request lib c method path body params fuel
        = Some (Fail (EClientError
                        {| Message :=
                             match resp_Body r3 with
                             | EmptyString => "server error: 500"
                             | String _ _ => "server error: 500, response: " +:+ resp_Body r3
                             end;
                           StatusCode := Some 500;
                           Response := parseResponse lib (resp_Body r3) |}),
                {| sent := [req; req; req; req];
                   slept := [1 * Second; 2 * Second; 4 * Second] |})
        /\ MaxRetries DefaultRetryConfig + 1 = 4).
Proof.
  split.
  - intros r0 r1 r2 fuel H0 S0 H1 S1 H2 S2 Hfuel.
    replace fuel with (3 + (fuel - 3))%nat by lia.
    apply request_loop_more_fuel.
    unfold request, World_init.
    erewrite request_loop_continue
      by (apply (pass_500_retried 0 _ r0); [lia | exact H0 | exact S0]).
    change (Int64.add 0 1) with 1.
    erewrite request_loop_continue
      by (apply (pass_500_retried 1 _ r1); [lia | exact H1 | exact S1]).
    change (Int64.add 1 1) with 2.
    apply request_loop_return.
    rewrite (iteration_received _ _ _ _ _ _ _ _ r2) by done.
    rewrite dispatch_success by lia. reflexivity.
  - intros r0 r1 r2 r3 fuel H0 S0 H1 S1 H2 S2 H3 S3 Hfuel. split; [| reflexivity].
    replace fuel with (4 + (fuel - 4))%nat by lia.
    apply request_loop_more_fuel.
    unfold request, World_init.
    erewrite request_loop_continue
      by (apply (pass_500_retried 0 _ r0); [lia | exact H0 | exact S0]).
    change (Int64.add 0 1) with 1.
    erewrite request_loop_continue
      by (apply (pass_500_retried 1 _ r1); [lia | exact H1 | exact S1]).
    change (Int64.add 1 1) with 2.
    erewrite request_loop_continue
      by (apply (pass_500_retried 2 _ r2); [lia | exact H2 | exact S2]).
    change (Int64.add 2 1) with 3.
    apply request_loop_return.
    rewrite (iteration_received _ _ _ _ _ _ _ _ r3) by done.
    rewrite dispatch_server_final; rewrite ?policy_is_default, ?S3; done.
Qed.

End DefaultPolicyRuns.

Lemma default_policy_server_error_runs_witness :
  request reference_lib
    (defaultClient "test_key"
       (scripted [response 500 ∅ "busy"; response 500 ∅ EmptyString;
                  response 200 ∅ pending_task_body]))
    "POST" "/api/v3/memory/memorize" (Some (MarshalOk "{}")) ∅ 3
  = Some (Ok (parseResponse reference_lib pending_task_body),
          {| sent := replicate 3
                       (buildRequest (defaultClient "test_key" (scripted []))
                          "POST" "/api/v3/memory/memorize" (Some (MarshalOk "{}")) ∅);
             slept := [1 * Second; 2 * Second] |})
  /\ request reference_lib
       (defaultClient "test_key" (scripted (replicate 4 (response 500 ∅ "boom"))))
       "POST" "/api/v3/memory/memorize" (Some (MarshalOk "{}")) ∅ 4
     = Some (Fail (EClientError
                     {| Message := "server error: 500, response: boom";
                        StatusCode := Some 500;
                        Response := parseResponse reference_lib "boom" |}),
             {| sent := replicate 4
                          (buildRequest (defaultClient "test_key" (scripted []))
                             "POST" "/api/v3/memory/memorize" (Some (MarshalOk "{}")) ∅);
                slept := [1 * Second; 2 * Second; 4 * Second] |}).
Proof.
  split.
  - exact (proj1 (default_policy_server_error_runs reference_lib
                    (defaultClient "test_key"
                       (scripted [response 500 ∅ "busy"; response 500 ∅ EmptyString;
                                  response 200 ∅ pending_task_body]))
                    "POST" "/api/v3/memory/memorize" (Some (MarshalOk "{}")) ∅
                    eq_refl eq_refl eq_refl)
             (response 500 ∅ "busy") (response 500 ∅ EmptyString)
             (response 200 ∅ pending_task_body) 3%nat
             eq_refl eq_refl eq_refl eq_refl eq_refl eq_refl (le_n 3)).
  - exact (proj1 (proj2 (default_policy_server_error_runs reference_lib
                    (defaultClient "test_key" (scripted (replicate 4 (response 500 ∅ "boom"))))
                    "POST" "/api/v3/memory/memorize" (Some (MarshalOk "{}")) ∅
                    eq_refl eq_refl eq_refl)
             (response 500 ∅ "boom") (response 500 ∅ "boom")
             (response 500 ∅ "boom") (response 500 ∅ "boom") 4%nat
             eq_refl eq_refl eq_refl eq_refl eq_refl eq_refl eq_refl eq_refl (le_n 4))).
Defined.

(** ** The error classifier *)

Lemma message_override (response : payload) (fallback msg : string) :
  has_message response msg ->
  match response with
  | Some m =>
      match m !! "message" with
      | Some (JString msg) => if decide (msg = EmptyString) then fallback else msg
      | _ => fallback
      end
  | None => fallback
  end = msg.
Proof.
  intros (m & -> & Hm & Hne). rewrite Hm. by destruct (decide (msg = EmptyString)).
Qed.

Lemma message_default (response : payload) (fallback : string) :
  (forall msg, ~ has_message response msg) ->
  match response with
  | Some m =>
      match m !! "message" with
      | Some (JString msg) => if decide (msg = EmptyString) then fallback else msg
      | _ => fallback
      end
  | None => fallback
  end = fallback.
Proof.
  intros Hno. destruct response as [m |]; [| done].
  destruct (m !! "message") as [[| | | msg | |] |] eqn:Hm; try done.
  destruct (decide (msg = EmptyString)); [done |].
  exfalso. apply (Hno msg). by exists m.
Qed.

(** What the executor hands to the classifier as the decoded body. *)
Lemma parseResponse_cases (lib : StdLib) (respBody : string) :
  (respBody = EmptyString -> parseResponse lib respBody = None)
  /\ (respBody <> EmptyString -> json_Unmarshal lib respBody = DecodeError ->
      parseResponse lib respBody = Some {[ "raw" := JString respBody ]})
  /\ (forall result, respBody <> EmptyString ->
      json_Unmarshal lib respBody = DecodedTo result ->
      parseResponse lib respBody = result).
Proof.
  unfold parseResponse. destruct respBody as [| ch rest].
  - repeat split; done.
  - split; [done |]. split.
    + intros _ H. by rewrite H.
    + intros result _ H. by rewrite H.
Qed.

(** Every error of the classifier embeds a [ClientError] that carries the
    status code and the decoded body it was given. *)
Lemma raiseForStatus_carries_response (statusCode : Z) (path : string) (response : payload) :
  exists e, embedded (raiseForStatus statusCode path response) = Some e
            /\ Response e = response.
Proof.
  unfold raiseForStatus.
  destruct (statusCode =? 401); [| destruct (statusCode =? 404);
                                   [| destruct (statusCode =? 422)]];
    eexists; split; reflexivity.
Qed.

(** C5 (counterexample to the clause "or nil if decoding failed"). A 401
    response whose body is the text "plain text" does not decode, yet the
    [AuthenticationError] built for it carries a body that is not nil: the
    one-field mapping that keeps the raw text. *)
Lemma undecodable_body_reaches_the_error :
  JsonText.Unmarshal "plain text" = DecodeError
  /\ request reference_lib
       (defaultClient "test_key" (scripted [response 401 ∅ "plain text"]))
       "GET" "/api/v3/memory/memorize/status/t1" None ∅ 1
     = Some (Fail (EAuthenticationError
                     {| Message := "Authentication failed. Please check your API key.";
                        StatusCode := Some 401;
                        Response := Some {[ "raw" := JString "plain text" ]} |}),
             {| sent := [buildRequest (defaultClient "test_key" (scripted []))
                           "GET" "/api/v3/memory/memorize/status/t1" None ∅];
                slept := [] |})
  /\ is_Some (Some ({[ "raw" := JString "plain text" ]} : gmap string json)).
Proof. split; [| split]; [vm_compute; reflexivity | vm_compute; reflexivity | eauto]. Qed.

(** C5 (amended). The classifier maps 401 to [AuthenticationError], 404 to
    [NotFoundError], 422 to [ValidationError] and every other status to
    the generic [ClientError] with message "HTTP <status>: <path>".  A
    non-empty string under "message" in the decoded body replaces the
    default message of the first three and never that of the generic
    error.  Every error carries the status code and the decoded body it
    was given; for a terminal 4xx response that body is what the executor
    decoded: nil for an empty response body, the one-field mapping
    {"raw": text} when decoding failed, the decoded value otherwise. *)
Theorem raiseForStatus_classification
    (lib : StdLib) (c : Client) (statusCode : Z) (path : string) (response : payload) :
  (exists e,
      embedded (raiseForStatus statusCode path response) = Some e
      /\ StatusCode e = Some statusCode
      /\ Response e = response
      /\ (statusCode = 401 ->
          raiseForStatus statusCode path response = EAuthenticationError e
          /\ (forall msg, has_message response msg -> Message e = msg)
          /\ ((forall msg, ~ has_message response msg) ->
              Message e = "Authentication failed. Please check your API key."))
      /\ (statusCode = 404 ->
          raiseForStatus statusCode path response = ENotFoundError e
          /\ (forall msg, has_message response msg -> Message e = msg)
          /\ ((forall msg, ~ has_message response msg) ->
              Message e = "Resource not found: " +:+ path))
      /\ (statusCode = 422 ->
          raiseForStatus statusCode path response = EValidationError e
          /\ (forall msg, has_message response msg -> Message e = msg)
          /\ ((forall msg, ~ has_message response msg) ->
              Message e = "Request validation failed. Please check your request parameters."))
      /\ (statusCode <> 401 -> statusCode <> 404 -> statusCode <> 422 ->
          raiseForStatus statusCode path response = EClientError e
          /\ Message e = "HTTP " +:+ pretty statusCode +:+ ": " +:+ path))
  /\ (forall (attempt : Z) (w : World) (resp : HttpResponse),
        400 <= resp_StatusCode resp < 500 -> resp_StatusCode resp <> 429 ->
        dispatch lib c path attempt resp w
          = (Return (Fail (raiseForStatus (resp_StatusCode resp) path
                             (parseResponse lib (resp_Body resp)))), w)
        /\ (resp_Body resp = EmptyString -> parseResponse lib (resp_Body resp) = None)
        /\ (resp_Body resp <> EmptyString ->
            json_Unmarshal lib (resp_Body resp) = DecodeError ->
            parseResponse lib (resp_Body resp)
              = Some {[ "raw" := JString (resp_Body resp) ]})
        /\ (forall result, resp_Body resp <> EmptyString ->
            json_Unmarshal lib (resp_Body resp) = DecodedTo result ->
            parseResponse lib (resp_Body resp) = result)).
Proof.
  split.
  - unfold raiseForStatus.
    destruct (Z.eqb_spec statusCode 401) as [-> | H401];
      [| destruct (Z.eqb_spec statusCode 404) as [-> | H404];
         [| destruct (Z.eqb_spec statusCode 422) as [-> | H422]]].
    + eexists. split; [reflexivity |]. simpl.
      repeat split; try done; intros; try lia.
      * by apply message_override.
      * by apply message_default.
    + eexists. split; [reflexivity |]. simpl.
      repeat split; try done; intros; try lia.
      * by apply message_override.
      * by apply message_default.
    + eexists. split; [reflexivity |]. simpl.
      repeat split; try done; intros; try lia.
      * by apply message_override.
      * by apply message_default.
    + eexists. split; [reflexivity |]. simpl.
      repeat split; try done; intros; lia.
  - intros attempt w resp Hs H429.
    split; [by apply dispatch_client_error |].
    apply parseResponse_cases.
Qed.

(** ** Decoding of response bodies *)

(** C7. With the reference decoder, a response below status 400 whose body
    is the text of the JSON object {"task_id":"t1","status":"PENDING"} is
    returned as the mapping with exactly the keys "task_id" and "status"
    bound to the strings "t1" and "PENDING"; one whose body is the text
    [plain text], which is not JSON, is returned as the one-field mapping
    {"raw": "plain text"}.  Either way the call succeeds after a single
    request. *)
Theorem response_body_decoding
    (c : Client) (method path : string) (body : option Marshalled)
    (params : gmap string string) (resp : HttpResponse) (fuel : nat) :
  marshal_failure body = None ->
  http_NewRequest reference_lib method (baseURL c +:+ path) = None ->
  httpClient c 0%nat (buildRequest c method path body params) = Received resp ->
  resp_StatusCode resp < 400 ->
  (1 <= fuel)%nat ->
  (resp_Body resp = pending_task_body ->
     request reference_lib c method path body params fuel
       = Some (Ok (Some {[ "task_id" := JString "t1"; "status" := JString "PENDING" ]}),
               {| sent := [buildRequest c method path body params]; slept := [] |}))
  /\ (resp_Body resp = "plain text" ->
      request reference_lib c method path body params fuel
        = Some (Ok (Some {[ "raw" := JString "plain text" ]}),
                {| sent := [buildRequest c method path body params]; slept := [] |}))
  /\ dom ({[ "task_id" := JString "t1"; "status" := JString "PENDING" ]} : gmap string json)
     = {[ "task_id"; "status" ]}.
Proof.
  intros Hm Hn Hd Hs Hfuel.
  assert (Hrun : request reference_lib c method path body params fuel
                 = Some (Ok (parseResponse reference_lib (resp_Body resp)),
                         {| sent := [buildRequest c method path body params];
                            slept := [] |})).
  { replace fuel with (1 + (fuel - 1))%nat by lia.
    apply request_loop_more_fuel. apply request_loop_return.
    rewrite (iteration_received _ _ _ _ _ _ _ _ resp) by done.
    by rewrite dispatch_success. }
  split; [| split].
  - intros Hb. rewrite Hrun, Hb.
    replace (parseResponse reference_lib pending_task_body)
      with (Some ({[ "task_id" := JString "t1"; "status" := JString "PENDING" ]}
                  : gmap string json)); [done |].
    vm_compute. reflexivity.
  - intros Hb. rewrite Hrun, Hb. reflexivity.
  - vm_compute. reflexivity.
Qed.

Lemma response_body_decoding_witness :
  request reference_lib
    (defaultClient "test_key" (scripted [response 200 ∅ pending_task_body]))
    "POST" "/api/v3/memory/memorize" (Some (MarshalOk "{}")) ∅ 1
  = Some (Ok (Some {[ "task_id" := JString "t1"; "status" := JString "PENDING" ]}),
          {| sent := [buildRequest (defaultClient "test_key" (scripted []))
                        "POST" "/api/v3/memory/memorize" (Some (MarshalOk "{}")) ∅];
             slept := [] |}).
Proof.
  refine (proj1 (response_body_decoding
            (defaultClient "test_key" (scripted [response 200 ∅ pending_task_body]))
            "POST" "/api/v3/memory/memorize" (Some (MarshalOk "{}")) ∅
            (response 200 ∅ pending_task_body) 1 _ _ _ _ _) _).
  - reflexivity.
  - reflexivity.
  - reflexivity.
  - simpl. lia.
  - lia.
  - reflexivity.
Defined.

(** C10. A response with an empty body is not decoded at all, whatever the
    decoder would say of the empty text: the decoded body is nil.  A
    status below 400 returns the nil mapping, not {"raw": ""}; a terminal
    4xx, 429 or 5xx outcome builds its error around the nil body.  The
    {"raw": text} mapping arises only for a non-empty body that the
    decoder rejects. *)
Theorem empty_body_is_not_decoded
    (lib : StdLib) (c : Client) (path : string) (attempt : Z) (w : World)
    (status : Z) (header : gmap string string) :
  parseResponse lib EmptyString = None
  /\ (status < 400 ->
      dispatch lib c path attempt (response status header EmptyString) w
        = (Return (Ok None), w))
  /\ (400 <= status < 500 -> status <> 429 ->
      dispatch lib c path attempt (response status header EmptyString) w
        = (Return (Fail (raiseForStatus status path None)), w)
      /\ exists e, embedded (raiseForStatus status path None) = Some e
                   /\ Response e = None)
  /\ (status = 429 -> ShouldRetry (retryPolicy c) attempt 429 None = false ->
      exists retryAfter,
        dispatch lib c path attempt (response status header EmptyString) w
          = (Return (Fail (ERateLimitError
                             {| Message := "rate limit exceeded";
                                StatusCode := Some 429;
                                Response := None |} retryAfter)), w))
  /\ (500 <= status -> ShouldRetry (retryPolicy c) attempt status None = false ->
      dispatch lib c path attempt (response status header EmptyString) w
        = (Return (Fail (EClientError
                           {| Message := "server error: " +:+ pretty status;
                              StatusCode := Some status;
                              Response := None |})), w))
  /\ (forall respBody,
        parseResponse lib respBody = Some {[ "raw" := JString respBody ]} ->
        respBody <> EmptyString
        /\ (json_Unmarshal lib respBody = DecodeError
            \/ json_Unmarshal lib respBody
               = DecodedTo (Some {[ "raw" := JString respBody ]})))
  /\ (forall respBody,
        respBody <> EmptyString -> json_Unmarshal lib respBody = DecodeError ->
        parseResponse lib respBody = Some {[ "raw" := JString respBody ]}).
Proof.
  split; [reflexivity |].
  split; [intros H; by rewrite dispatch_success |].
  split.
  { intros H H429. split; [by rewrite dispatch_client_error |].
    apply raiseForStatus_carries_response. }
  split.
  { intros -> Hr. eexists. by rewrite dispatch_rate_limit_final. }
  split.
  { intros H Hr. by rewrite dispatch_server_final. }
  split.
  - intros respBody H. unfold parseResponse in H.
    destruct respBody as [| ch rest]; [discriminate |].
    split; [done |].
    destruct (json_Unmarshal lib (String ch rest)) as [| result].
    + left. reflexivity.
    + right. by rewrite H.
  - intros respBody Hne Hd.
    destruct (parseResponse_cases lib respBody) as (_ & Hraw & _). by apply Hraw.
Qed.

(** ** The client's own retry count *)

(** C9. The executor never reads the [maxRetries] field of the client:
    two clients that agree on every other field (the same key, base URL,
    transport, timeout and retry policy) run the same passes and end with
    the same result and the same requests and sleeps, for every amount of
    fuel.  In particular [WithMaxRetries] changes nothing of a call. *)
Theorem request_ignores_maxRetries
    (lib : StdLib) (c1 c2 : Client) (method path : string) (body : option Marshalled)
    (params : gmap string string) (fuel : nat) :
  apiKey c1 = apiKey c2 ->
  baseURL c1 = baseURL c2 ->
  httpClient c1 = httpClient c2 ->
  timeout c1 = timeout c2 ->
  retryPolicy c1 = retryPolicy c2 ->
  request lib c1 method path body params fuel = request lib c2 method path body params fuel
  /\ (forall retries,
        request lib (WithMaxRetries retries c1) method path body params fuel
          = request lib c1 method path body params fuel).
Proof.
  intros Hk Hu Hh Ht Hp.
  assert (Hpass : forall attempt w,
             iteration lib c1 method path body params attempt w
               = iteration lib c2 method path body params attempt w).
  { intros attempt w. unfold iteration, dispatch, waitTime, buildRequest, defaultHeaders.
    by rewrite Hk, Hu, Hh, Hp. }
  split.
  - unfold request. generalize 0 World_init.
    induction fuel as [| fuel IH]; intros attempt w; [done |].
    simpl. rewrite Hpass.
    destruct (iteration lib c2 method path body params attempt w) as [[| r] w']; [| done].
    apply IH.
  - intros retries. destruct c1. reflexivity.
Qed.

Lemma request_ignores_maxRetries_witness :
  request reference_lib
    (WithMaxRetries 0
       (defaultClient "test_key"
          (scripted [response 500 ∅ EmptyString; response 500 ∅ EmptyString;
                     response 200 ∅ pending_task_body])))
    "POST" "/api/v3/memory/memorize" (Some (MarshalOk "{}")) ∅ 3
  = request reference_lib
      (defaultClient "test_key"
         (scripted [response 500 ∅ EmptyString; response 500 ∅ EmptyString;
                    response 200 ∅ pending_task_body]))
      "POST" "/api/v3/memory/memorize" (Some (MarshalOk "{}")) ∅ 3.
Proof.
  exact (proj1 (request_ignores_maxRetries reference_lib
                  (WithMaxRetries 0
                     (defaultClient "test_key"
                        (scripted [response 500 ∅ EmptyString; response 500 ∅ EmptyString;
                                   response 200 ∅ pending_task_body])))
                  (defaultClient "test_key"
                     (scripted [response 500 ∅ EmptyString; response 500 ∅ EmptyString;
                                response 200 ∅ pending_task_body]))
                  "POST" "/api/v3/memory/memorize" (Some (MarshalOk "{}")) ∅ 3
                  eq_refl eq_refl eq_refl eq_refl eq_refl)).
Defined.

(** With the retry count of the client set to zero, the default policy
    still retries a failing call up to its own ceiling of three. *)
Example WithMaxRetries_zero_still_retries :
  request reference_lib
    (WithMaxRetries 0
       (defaultClient "test_key"
          (scripted [response 500 ∅ EmptyString; response 500 ∅ EmptyString;
                     response 200 ∅ EmptyString])))
    "POST" "/api/v3/memory/memorize" (Some (MarshalOk "{}")) ∅ 3
  = Some (Ok None,
          {| sent := replicate 3
                       (buildRequest (defaultClient "test_key" (scripted []))
                          "POST" "/api/v3/memory/memorize" (Some (MarshalOk "{}")) ∅);
             slept := [1 * Second; 2 * Second] |}).
Proof. vm_compute. reflexivity. Qed.

(** ** Rate limiting *)

(** The wait of a 429 response: the policy's backoff when there is no
    Retry-After header; exactly five seconds for the header value 5, for
    every policy and attempt; and the error of a declined retry carries
    that wait (in seconds, as a float64), the status 429 and the decoded
    body. *)
Theorem rate_limit_wait_and_error
    (lib : StdLib) (c : Client) (path : string) (attempt : Z) (w : World)
    (header : gmap string string) (respBody : string) :
  (header !! "Retry-After" = None ->
     waitTime lib c attempt (response 429 header respBody)
       = GetBackoff (retryPolicy c) attempt)
  /\ waitTime reference_lib c attempt (response 429 {[ "Retry-After" := "5" ]} respBody)
     = 5 * Second
  /\ (ShouldRetry (retryPolicy c) attempt 429 None = false ->
      dispatch lib c path attempt (response 429 header respBody) w
        = (Return (Fail (ERateLimitError
                           {| Message := "rate limit exceeded";
                              StatusCode := Some 429;
                              Response := parseResponse lib respBody |}
                           (Some (Float64.div
                                    (Float64.of_int64
                                       (waitTime lib c attempt
                                          (response 429 header respBody)))
                                    (Float64.of_int64 Second))))), w))
  /\ (ShouldRetry (retryPolicy c) attempt 429 None = true ->
      dispatch lib c path attempt (response 429 header respBody) w
        = (Continue,
           {| sent := sent w;
              slept := slept w ++ [waitTime lib c attempt (response 429 header respBody)] |})).
Proof.
  split; [intros H; by apply waitTime_without_header |].
  split; [reflexivity |].
  split.
  - intros Hr. by rewrite dispatch_rate_limit_final.
  - intros Hr. by rewrite dispatch_rate_limit_retry.
Qed.

(** C1 (evaluation at the failing input). The server answers every request
    with status 429 and the Retry-After header in its HTTP-date form, which
    [strconv.ParseFloat] rejects.  Under the default policy the call sleeps
    0ns before each of its three retries, and the [RateLimitError] of the
    fourth attempt reports a wait of 0 seconds, while the policy's backoff
    for that attempt is 8s. *)
Theorem rate_limit_with_unparseable_header :
  ParseFloat_decimal http_date = None
  /\ request reference_lib
       (defaultClient "test_key"
          (scripted (replicate 4 (response 429 {[ "Retry-After" := http_date ]} EmptyString))))
       "GET" "/api/v3/memory/memorize/status/t1" None ∅ 4
     = Some (Fail (ERateLimitError
                     {| Message := "rate limit exceeded";
                        StatusCode := Some 429;
                        Response := None |}
                     (Some (S754_zero false))),
             {| sent := replicate 4
                          (buildRequest (defaultClient "test_key" (scripted []))
                             "GET" "/api/v3/memory/memorize/status/t1" None ∅);
                slept := [0; 0; 0] |})
  /\ GetBackoff (NewDefaultRetryPolicy None) 3 = 8 * Second.
Proof. vm_compute. auto. Qed.

(* ===================================================================== *)
(** * Further properties of the executor *)
(* ===================================================================== *)

(** ** SDK policies and their ceilings *)

Lemma default_policy_has_ceiling (config : RetryConfig) :
  has_ceiling (NewDefaultRetryPolicy (Some config)) (MaxRetries config).
Proof.
  intros attempt statusCode err H. simpl. unfold defaultRetryPolicy_ShouldRetry.
  destruct (Z.leb_spec (MaxRetries config) attempt); [done | lia].
Qed.

Lemma builtin_policy_has_ceiling : has_ceiling (NewDefaultRetryPolicy None) 3.
Proof. apply (default_policy_has_ceiling DefaultRetryConfig). Qed.

Lemma custom_policy_has_ceiling (maxRetries : Z) (f : CustomRetryFunc) (g : CustomBackoffFunc) :
  has_ceiling (NewCustomRetryPolicy maxRetries f g) maxRetries.
Proof.
  intros attempt statusCode err H. simpl. unfold customRetryPolicy_ShouldRetry. simpl.
  destruct (Z.leb_spec maxRetries attempt); [done | lia].
Qed.

Lemma no_retry_policy_has_ceiling (n : Z) : has_ceiling NewNoRetryPolicy n.
Proof. intros attempt statusCode err H. reflexivity. Qed.

(** ** One pass, read backwards *)

Section PassInversion.

Variable lib : StdLib.
Variable c : Client.
Variables (method path : string) (body : option Marshalled) (params : gmap string string).

Local Abbreviation req := (buildRequest c method path body params).
Local Abbreviation pass := (iteration lib c method path body params).
Local Abbreviation loop := (request_loop lib c method path body params).

(** What each way out of the status dispatch says about the response. *)
Lemma dispatch_inversion attempt resp w ctl w' :
  dispatch lib c path attempt resp w = (ctl, w') ->
  match ctl with
  | Continue =>
      (resp_StatusCode resp = 429 \/ 500 <= resp_StatusCode resp)
      /\ ShouldRetry (retryPolicy c) attempt (resp_StatusCode resp) None = true
      /\ w' = Sleep (if resp_StatusCode resp =? 429
                     then waitTime lib c attempt resp
                     else GetBackoff (retryPolicy c) attempt) w
  | Return (Ok result) =>
      resp_StatusCode resp < 400
      /\ result = parseResponse lib (resp_Body resp)
      /\ w' = w
  | Return (Fail err) =>
      400 <= resp_StatusCode resp
      /\ w' = w
      /\ (resp_StatusCode resp = 429 \/ 500 <= resp_StatusCode resp ->
          ShouldRetry (retryPolicy c) attempt (resp_StatusCode resp) None = false)
      /\ exists e,
           embedded err = Some e
           /\ StatusCode e = Some (resp_StatusCode resp)
           /\ Response e = parseResponse lib (resp_Body resp)
           /\ Error_string err
              = "MemU API error (status " +:+ pretty (resp_StatusCode resp) +:+ "): "
                  +:+ Message e
  end.
Proof.
  unfold dispatch.
  destruct (Z.eqb_spec (resp_StatusCode resp) 429) as [E429 | N429].
  - rewrite E429.
    destruct (ShouldRetry (retryPolicy c) attempt 429 None) eqn:Hr;
      intros [= <- <-].
    + split; [by left |]. split; done.
    + split; [lia |]. split; [done |]. split; [done |].
      eexists. split; [reflexivity |]. split; [done |]. split; done.
  - destruct (Z.leb_spec 500 (resp_StatusCode resp)) as [H500 | L500].
    + destruct (ShouldRetry (retryPolicy c) attempt (resp_StatusCode resp) None) eqn:Hr;
        intros [= <- <-].
      * split; [by right |]. split; done.
      * split; [lia |]. split; [done |]. split; [done |].
        eexists. split; [reflexivity |]. split; [done |]. split; done.
    + destruct (Z.leb_spec 400 (resp_StatusCode resp)) as [H400 | L400];
        intros [= <- <-].
      * split; [done |]. split; [done |]. split; [intros [? | ?]; lia |].
        unfold raiseForStatus.
        destruct (resp_StatusCode resp =? 401);
          [| destruct (resp_StatusCode resp =? 404);
             [| destruct (resp_StatusCode resp =? 422)]];
          (eexists; split; [reflexivity |]; split; [done |]; split; done).
      * split; [done |]. split; done.
Qed.

(** The pass once the body is known to marshal. *)
Lemma iteration_after_marshal attempt w :
  marshal_failure body = None ->
  pass attempt w
  = match http_NewRequest lib method (baseURL c +:+ path) with
    | Some err => (Return (Fail (Errorf "failed to create request" err)), w)
    | None =>
        match httpClient c (length (sent w)) req with
        | DoFailed err =>
            if ShouldRetry (retryPolicy c) attempt 0 (Some err)
            then (Continue, Sleep (GetBackoff (retryPolicy c) attempt) (send req w))
            else
              (Return (Fail (Errorf ("request failed after "
                                       +:+ pretty (Int64.add attempt 1)
                                       +:+ " attempts") err)), send req w)
        | ReadFailed err =>
            (Return (Fail (Errorf "failed to read response body" err)), send req w)
        | Received resp => dispatch lib c path attempt resp (send req w)
        end
    end.
Proof.
  intros Hm. unfold iteration.
  destruct body as [[err | data] |]; [discriminate | done | done].
Qed.

Lemma marshal_failure_cases :
  (exists err, body = Some (MarshalError err)) \/ marshal_failure body = None.
Proof. destruct body as [[err | data] |]; [left; eauto | by right | by right]. Qed.

(** A pass that continues has sent the request, slept once, and was told
    to retry by the policy. *)
Lemma iteration_continue_inversion attempt w w' :
  pass attempt w = (Continue, w') ->
  marshal_failure body = None
  /\ http_NewRequest lib method (baseURL c +:+ path) = None
  /\ exists d statusCode err,
       w' = {| sent := sent w ++ [req]; slept := slept w ++ [d] |}
       /\ ShouldRetry (retryPolicy c) attempt statusCode err = true.
Proof.
  destruct marshal_failure_cases as [[err Hb] | Hm].
  { unfold iteration. rewrite Hb. discriminate. }
  rewrite iteration_after_marshal by done.
  destruct (http_NewRequest lib method (baseURL c +:+ path)) as [err |]; [discriminate |].
  destruct (httpClient c (length (sent w)) req) as [err | err | resp].
  - destruct (ShouldRetry (retryPolicy c) attempt 0 (Some err)) eqn:Hr; intros [= <-].
    split; [done |]. split; [done |]. eauto 10.
  - discriminate.
  - intros Hd. apply dispatch_inversion in Hd. destruct Hd as (_ & Hr & ->).
    split; [done |]. split; [done |]. eauto 10.
Qed.

(** A pass that returns: the five ways out. *)
Lemma iteration_return_inversion attempt w r w' :
  pass attempt w = (Return r, w') ->
  (exists err, body = Some (MarshalError err)
               /\ r = Fail (Errorf "failed to marshal request body" err) /\ w' = w)
  \/ (marshal_failure body = None
      /\ exists err, http_NewRequest lib method (baseURL c +:+ path) = Some err
                     /\ r = Fail (Errorf "failed to create request" err) /\ w' = w)
  \/ (marshal_failure body = None
      /\ http_NewRequest lib method (baseURL c +:+ path) = None
      /\ w' = {| sent := sent w ++ [req]; slept := slept w |}
      /\ ((exists err, httpClient c (length (sent w)) req = DoFailed err
                       /\ ShouldRetry (retryPolicy c) attempt 0 (Some err) = false
                       /\ r = Fail (Errorf ("request failed after "
                                             +:+ pretty (Int64.add attempt 1)
                                             +:+ " attempts") err))
          \/ (exists err, httpClient c (length (sent w)) req = ReadFailed err
                          /\ r = Fail (Errorf "failed to read response body" err))
          \/ (exists resp, httpClient c (length (sent w)) req = Received resp
                           /\ dispatch lib c path attempt resp w' = (Return r, w')))).
Proof.
  intros H.
  destruct marshal_failure_cases as [[err Hb] | Hm].
  { unfold iteration in H. rewrite Hb in H. injection H as <- <-. left. eauto. }
  rewrite iteration_after_marshal in H by done. right.
  destruct (http_NewRequest lib method (baseURL c +:+ path)) as [err |].
  { injection H as <- <-. left. eauto. }
  right. split; [done |]. split; [done |].
  destruct (httpClient c (length (sent w)) req) as [err | err | resp].
  - destruct (ShouldRetry (retryPolicy c) attempt 0 (Some err)) eqn:Hr;
      [discriminate |]. injection H as <- <-.
    split; [done |]. left. eauto.
  - injection H as <- <-. split; [done |]. right. left. eauto.
  - pose proof H as Hd. apply dispatch_inversion in Hd.
    assert (w' = send req w) as -> by (destruct r; tauto).
    split; [done |]. right. right. eauto.
Qed.

(** [attempt++] repeated [k] times. *)
Lemma attempt_after (k : nat) (attempt : Z) :
  0 <= attempt -> attempt + Z.of_nat k <= Int64.max_int ->
  Nat.iter k (fun a => Int64.add a 1) attempt = attempt + Z.of_nat k.
Proof.
  induction k as [| k IH]; intros H0 Hk; simpl; [lia |].
  rewrite IH by lia. unfold Int64.add. rewrite wrap_in_range; [lia |].
  unfold Int64.in_range, Int64.min_int, Int64.half_modulus. lia.
Qed.

(** A finished call is a run of [k] retried passes, each of which sent the
    request and slept once, followed by one pass that returned. *)
Lemma request_loop_inversion fuel : forall attempt w r w',
  loop fuel attempt w = Some (r, w') ->
  exists (k : nat) (l : list Duration),
    (k < fuel)%nat
    /\ length l = k
    /\ (k = 0%nat
        \/ (marshal_failure body = None
            /\ http_NewRequest lib method (baseURL c +:+ path) = None))
    /\ pass (Nat.iter k (fun a => Int64.add a 1) attempt)
         {| sent := sent w ++ replicate k req; slept := slept w ++ l |}
       = (Return r, w').
Proof.
  induction fuel as [| fuel IH]; intros attempt w r w' H; [discriminate |].
  simpl in H. destruct (pass attempt w) as [[| r0] w1] eqn:E.
  - destruct (iteration_continue_inversion _ _ _ E) as (Hm & Hn & d & s & e & -> & _).
    apply IH in H. destruct H as (k & l & Hk & Hl & _ & Hp). simpl in Hp.
    exists (S k), (d :: l).
    split; [lia |]. split; [simpl; lia |]. split; [right; done |].
    rewrite Nat.iter_succ_r. simpl.
    by rewrite <- !app_assoc in Hp.
  - injection H as <- <-. exists 0%nat, [].
    split; [lia |]. split; [done |]. split; [by left |].
    simpl. rewrite !app_nil_r. by destruct w.
Qed.

End PassInversion.

(** ** Whole calls *)

Section CallFacts.

Variable lib : StdLib.
Variable c : Client.
Variables (method path : string) (body : option Marshalled) (params : gmap string string).

Local Abbreviation req := (buildRequest c method path body params).
Local Abbreviation pass := (iteration lib c method path body params).
Local Abbreviation loop := (request_loop lib c method path body params).
Local Abbreviation call := (request lib c method path body params).

Lemma request_final_pass fuel r w :
  call fuel = Some (r, w) ->
  exists (k : nat) (l : list Duration),
    (k < fuel)%nat
    /\ length l = k
    /\ (k = 0%nat
        \/ (marshal_failure body = None
            /\ http_NewRequest lib method (baseURL c +:+ path) = None))
    /\ pass (Nat.iter k (fun a => Int64.add a 1) 0) {| sent := replicate k req; slept := l |}
       = (Return r, w).
Proof.
  intros H. unfold request in H.
  exact (request_loop_inversion lib c method path body params fuel 0 World_init r w H).
Qed.

Lemma marshal_error_not_none err : marshal_failure (Some (MarshalError err)) <> None.
Proof. discriminate. Qed.

(** Passes left before the ceiling bound the fuel a call needs. *)
Lemma request_loop_bounded (n : Z) (k : nat) : forall attempt w,
  has_ceiling (retryPolicy c) n ->
  n <= Int64.max_int ->
  0 <= attempt ->
  n - attempt <= Z.of_nat k ->
  exists r w', loop (S k) attempt w = Some (r, w').
Proof.
  induction k as [| k IH]; intros attempt w Hc Hn H0 Hk.
  - destruct (pass attempt w) as [[| r] w1] eqn:E.
    + destruct (iteration_continue_inversion _ _ _ _ _ _ _ _ _ E)
        as (_ & _ & d & s & e & _ & Hr).
      rewrite Hc in Hr by lia. discriminate.
    + exists r, w1. by apply request_loop_return.
  - destruct (pass attempt w) as [[| r] w1] eqn:E.
    + destruct (iteration_continue_inversion _ _ _ _ _ _ _ _ _ E)
        as (_ & _ & d & s & e & _ & Hr).
      assert (attempt < n).
      { destruct (Z.lt_ge_cases attempt n) as [? | Hge]; [done |].
        rewrite Hc in Hr by done. discriminate. }
      rewrite (request_loop_continue _ _ _ _ _ _ _ _ _ _ E).
      unfold Int64.add. rewrite wrap_in_range
        by (unfold Int64.in_range, Int64.min_int, Int64.half_modulus; lia).
      apply IH; try done; lia.
    + exists r, w1. by apply request_loop_return.
Qed.

(** Under a policy that declines from attempt [n] on, a call given
    [n + 1] passes of fuel returns, after at most [n + 1] requests and
    [n] sleeps. *)
Lemma request_bounded_by_ceiling (n : Z) :
  has_ceiling (retryPolicy c) n ->
  n <= Int64.max_int ->
  exists r w,
    call (S (Z.to_nat n)) = Some (r, w)
    /\ (length (sent w) <= S (Z.to_nat n))%nat
    /\ (length (slept w) <= Z.to_nat n)%nat.
Proof.
  intros Hc Hn.
  destruct (request_loop_bounded n (Z.to_nat n) 0 World_init Hc Hn) as (r & w & H);
    [lia | lia |].
  exists r, w. split; [done |].
  destruct (request_final_pass _ _ _ H) as (k & l & Hk & Hl & _ & Hp).
  destruct (iteration_return_inversion _ _ _ _ _ _ _ _ _ _ Hp)
    as [(err & _ & _ & ->) | [(_ & err & _ & _ & ->) | (_ & _ & -> & _)]];
    simpl; rewrite ?length_app, ?length_replicate; simpl; lia.
Qed.

(** The SDK's own policies bound every call: with the default policy over
    a configuration whose [MaxRetries] is [n], the custom policy built
    with [maxRetries = n], or the no-retry policy ([n = 0]), a call given
    [n + 1] passes returns, whatever the server and the transport do,
    after at most [n + 1] requests and [n] sleeps. *)
Theorem sdk_policies_bound_the_call (n : Z) :
  n <= Int64.max_int ->
  (exists config, retryPolicy c = NewDefaultRetryPolicy (Some config) /\ MaxRetries config = n)
  \/ (retryPolicy c = NewDefaultRetryPolicy None /\ n = 3)
  \/ (exists f g, retryPolicy c = NewCustomRetryPolicy n f g)
  \/ (retryPolicy c = NewNoRetryPolicy /\ n = 0) ->
  exists r w,
    call (S (Z.to_nat n)) = Some (r, w)
    /\ (length (sent w) <= S (Z.to_nat n))%nat
    /\ (length (slept w) <= Z.to_nat n)%nat.
Proof.
  intros Hn Hp. apply request_bounded_by_ceiling; [| done].
  destruct Hp as [(config & -> & <-) | [[-> ->] | [(f & g & ->) | [-> ->]]]].
  - apply default_policy_has_ceiling.
  - apply builtin_policy_has_ceiling.
  - apply custom_policy_has_ceiling.
  - apply no_retry_policy_has_ceiling.
Qed.

(** Under the no-retry policy a call is its first pass: it returns with
    one pass of fuel, sends at most one request and never sleeps. *)
Theorem no_retry_policy_single_pass (fuel : nat) :
  retryPolicy c = NewNoRetryPolicy ->
  (1 <= fuel)%nat ->
  exists r w,
    call fuel = Some (r, w)
    /\ pass 0 World_init = (Return r, w)
    /\ (length (sent w) <= 1)%nat
    /\ slept w = [].
Proof.
  intros Hp Hfuel.
  destruct (pass 0 World_init) as [[| r] w] eqn:E.
  - destruct (iteration_continue_inversion _ _ _ _ _ _ _ _ _ E)
      as (_ & _ & d & s & e & _ & Hr).
    rewrite Hp in Hr. discriminate.
  - exists r, w. split.
    + replace fuel with (1 + (fuel - 1))%nat by lia.
      apply request_loop_more_fuel. by apply request_loop_return.
    + split; [done |].
      destruct (iteration_return_inversion _ _ _ _ _ _ _ _ _ _ E)
        as [(err & _ & _ & ->) | [(_ & err & _ & _ & ->) | (_ & _ & -> & _)]];
        simpl; split; first [ lia | done ].
Qed.

Lemma request_trace (fuel : nat) (r : Result) (w : World) :
  call fuel = Some (r, w) ->
  sent w = replicate (length (sent w)) req
  /\ length (slept w) = (length (sent w) - 1)%nat
  /\ (length (sent w) <= fuel)%nat.
Proof.
  intros H.
  destruct (request_final_pass _ _ _ H) as (k & l & Hk & Hl & Hfirst & Hp).
  destruct (iteration_return_inversion _ _ _ _ _ _ _ _ _ _ Hp)
    as [(err & Hb & _ & ->) | [(Hm & err & Hn & _ & ->) | (_ & _ & -> & _)]].
  - destruct Hfirst as [-> | [Hm _]].
    + destruct l; [| discriminate]. simpl. repeat split; lia.
    + rewrite Hb in Hm. discriminate.
  - destruct Hfirst as [-> | [_ Hn']].
    + destruct l; [| discriminate]. simpl. repeat split; lia.
    + rewrite Hn in Hn'. discriminate.
  - simpl. rewrite length_app, length_replicate. simpl.
    replace (k + 1)%nat with (S k) by lia.
    rewrite replicate_S_end. repeat split; lia.
Qed.

(** Every request of a call is the same request, and the call sleeps
    exactly once between two consecutive requests: never before the first
    one, never after the last one. *)
Theorem request_trace_shape (fuel : nat) (r : Result) (w : World) :
  call fuel = Some (r, w) ->
  sent w = replicate (length (sent w)) req
  /\ length (slept w) = (length (sent w) - 1)%nat
  /\ (length (sent w) <= fuel)%nat.
Proof. apply request_trace. Qed.

(** The wrapped errors of a call and what each one tells: a marshalling or
    request-construction error means nothing was sent; a body-read error
    or a transport error is the outcome of the last request sent, and the
    text of the transport error counts exactly the requests sent. *)
Theorem request_wrapped_errors (fuel : nat) (text : string) (cause : error) (w : World) :
  call fuel = Some (Fail (Errorf text cause), w) ->
  Z.of_nat fuel <= Int64.max_int ->
  (text = "failed to marshal request body"
   /\ body = Some (MarshalError cause) /\ sent w = [])
  \/ (text = "failed to create request"
      /\ http_NewRequest lib method (baseURL c +:+ path) = Some cause /\ sent w = [])
  \/ (text = "failed to read response body"
      /\ (1 <= length (sent w))%nat
      /\ httpClient c (length (sent w) - 1)%nat req = ReadFailed cause)
  \/ (text = "request failed after " +:+ pretty (Z.of_nat (length (sent w))) +:+ " attempts"
      /\ (1 <= length (sent w))%nat
      /\ httpClient c (length (sent w) - 1)%nat req = DoFailed cause).
Proof.
  intros H Hfuel.
  destruct (request_final_pass _ _ _ H) as (k & l & Hk & Hl & Hfirst & Hp).
  destruct (iteration_return_inversion _ _ _ _ _ _ _ _ _ _ Hp)
    as [(err & Hb & Hr & ->) | [(Hm & err & Hn & Hr & ->) | (_ & _ & -> & Hlast)]].
  - injection Hr as -> ->. left.
    destruct Hfirst as [-> | [Hm _]]; [done |]. rewrite Hb in Hm. discriminate.
  - injection Hr as -> ->. right. left.
    destruct Hfirst as [-> | [_ Hn']]; [done |]. rewrite Hn in Hn'. discriminate.
  - right. right. simpl in *. rewrite length_app, length_replicate in *. simpl.
    replace (k + 1 - 1)%nat with k by lia.
    rewrite ?length_replicate in Hlast.
    destruct Hlast as [(err & Hd & _ & Hr) | [(err & Hd & Hr) | (resp & _ & Hd)]].
    + injection Hr as -> ->. right.
      rewrite attempt_after by lia.
      unfold Int64.add. rewrite wrap_in_range
        by (unfold Int64.in_range, Int64.min_int, Int64.half_modulus; lia).
      replace (0 + Z.of_nat k + 1) with (Z.of_nat (k + 1)) by lia.
      repeat split; [lia | done].
    + injection Hr as -> ->. left. repeat split; [lia | done].
    + apply dispatch_inversion in Hd. destruct Hd as (_ & _ & _ & e & He & _).
      discriminate.
Qed.

(** The result of a call reflects the last response received: a success
    carries the decoded body of a response below status 400; an SDK error
    carries the status (400 or above) and the decoded body of that
    response, and its text names the status. *)
Theorem request_outcome_reflects_last_response (fuel : nat) (r : Result) (w : World) :
  call fuel = Some (r, w) ->
  match r with
  | Ok result =>
      exists resp,
        (1 <= length (sent w))%nat
        /\ httpClient c (length (sent w) - 1)%nat req = Received resp
        /\ resp_StatusCode resp < 400
        /\ result = parseResponse lib (resp_Body resp)
  | Fail err =>
      forall e, embedded err = Some e ->
        exists resp,
          (1 <= length (sent w))%nat
          /\ httpClient c (length (sent w) - 1)%nat req = Received resp
          /\ 400 <= resp_StatusCode resp
          /\ StatusCode e = Some (resp_StatusCode resp)
          /\ Response e = parseResponse lib (resp_Body resp)
          /\ Error_string err
             = "MemU API error (status " +:+ pretty (resp_StatusCode resp) +:+ "): "
                 +:+ Message e
  end.
Proof.
  intros H.
  destruct (request_final_pass _ _ _ H) as (k & l & Hk & Hl & Hfirst & Hp).
  destruct (iteration_return_inversion _ _ _ _ _ _ _ _ _ _ Hp)
    as [(err & _ & -> & _) | [(_ & err & _ & -> & _) | (_ & _ & -> & Hlast)]].
  - intros e He. discriminate.
  - intros e He. discriminate.
  - simpl in *. rewrite length_app, length_replicate in *. simpl.
    replace (k + 1 - 1)%nat with k by lia.
    rewrite ?length_replicate in Hlast.
    destruct Hlast as [(err & _ & _ & ->) | [(err & _ & ->) | (resp & Hd & Hdis)]].
    + intros e He. discriminate.
    + intros e He. discriminate.
    + apply dispatch_inversion in Hdis. destruct r as [result | err].
      * destruct Hdis as (Hs & -> & _). exists resp. repeat split; try done; lia.
      * destruct Hdis as (Hs & _ & _ & e' & He' & Hst & Hresp & Hstr).
        intros e He. rewrite He' in He. injection He as <-.
        exists resp. repeat split; try done; lia.
Qed.

(** A request that cannot be built, or a response whose body cannot be
    read, ends the call at once whatever the retry policy says of errors:
    the first before anything is sent, the second after the one request. *)
Theorem build_and_read_failures_are_final :
  marshal_failure body = None ->
  (forall err attempt w fuel,
      http_NewRequest lib method (baseURL c +:+ path) = Some err ->
      loop (S fuel) attempt w = Some (Fail (Errorf "failed to create request" err), w))
  /\ (forall err attempt w fuel,
      http_NewRequest lib method (baseURL c +:+ path) = None ->
      httpClient c (length (sent w)) req = ReadFailed err ->
      loop (S fuel) attempt w
        = Some (Fail (Errorf "failed to read response body" err),
                {| sent := sent w ++ [req]; slept := slept w |})).
Proof.
  intros Hm. split.
  - intros err attempt w fuel Hn. apply request_loop_return.
    rewrite iteration_after_marshal by done. by rewrite Hn.
  - intros err attempt w fuel Hn Hd. apply request_loop_return.
    rewrite iteration_after_marshal by done. by rewrite Hn, Hd.
Qed.

End CallFacts.

Lemma sdk_policies_bound_the_call_witness :
  exists r w,
    request reference_lib
      (defaultClient "test_key" (scripted (replicate 9 (response 503 ∅ EmptyString))))
      "GET" "/api/v3/memory/memorize/status/t1" None ∅ (S (Z.to_nat 3)) = Some (r, w)
    /\ (length (sent w) <= S (Z.to_nat 3))%nat
    /\ (length (slept w) <= Z.to_nat 3)%nat.
Proof.
  apply (sdk_policies_bound_the_call reference_lib
           (defaultClient "test_key" (scripted (replicate 9 (response 503 ∅ EmptyString))))
           "GET" "/api/v3/memory/memorize/status/t1" None ∅ 3).
  - vm_compute. congruence.
  - right. left. split; reflexivity.
Defined.

Lemma no_retry_policy_single_pass_witness :
  exists r w,
    request reference_lib
      (WithRetryPolicy NewNoRetryPolicy
         (defaultClient "test_key" (scripted (replicate 9 (response 503 ∅ EmptyString)))))
      "GET" "/api/v3/memory/memorize/status/t1" None ∅ 1 = Some (r, w)
    /\ iteration reference_lib
         (WithRetryPolicy NewNoRetryPolicy
            (defaultClient "test_key" (scripted (replicate 9 (response 503 ∅ EmptyString)))))
         "GET" "/api/v3/memory/memorize/status/t1" None ∅ 0 World_init = (Return r, w)
    /\ (length (sent w) <= 1)%nat
    /\ slept w = [].
Proof.
  apply (no_retry_policy_single_pass reference_lib
           (WithRetryPolicy NewNoRetryPolicy
              (defaultClient "test_key" (scripted (replicate 9 (response 503 ∅ EmptyString)))))
           "GET" "/api/v3/memory/memorize/status/t1" None ∅ 1).
  - reflexivity.
  - lia.
Defined.

Lemma request_trace_shape_witness :
  sent {| sent := replicate 3
                    (buildRequest (defaultClient "test_key" (scripted []))
                       "GET" "/api/v3/memory/memorize/status/t1" None ∅);
          slept := [1 * Second; 2 * Second] |}
  = replicate 3
      (buildRequest
         (defaultClient "test_key"
            (scripted [response 500 ∅ EmptyString; response 500 ∅ EmptyString;
                       response 200 ∅ EmptyString]))
         "GET" "/api/v3/memory/memorize/status/t1" None ∅)
  /\ length [1 * Second; 2 * Second] = (3 - 1)%nat
  /\ (3 <= 5)%nat.
Proof.
  apply (request_trace_shape reference_lib
           (defaultClient "test_key"
              (scripted [response 500 ∅ EmptyString; response 500 ∅ EmptyString;
                         response 200 ∅ EmptyString]))
           "GET" "/api/v3/memory/memorize/status/t1" None ∅ 5 (Ok None)
           {| sent := replicate 3
                        (buildRequest (defaultClient "test_key" (scripted []))
                           "GET" "/api/v3/memory/memorize/status/t1" None ∅);
              slept := [1 * Second; 2 * Second] |}).
  vm_compute. reflexivity.
Defined.

Lemma request_wrapped_errors_witness :
  "request failed after 4 attempts"
  = "request failed after " +:+ pretty (Z.of_nat 4) +:+ " attempts"
  /\ scripted [] (4 - 1)%nat
       (buildRequest (defaultClient "test_key" (scripted []))
          "GET" "/api/v3/memory/memorize/status/t1" None ∅)
     = DoFailed (ForeignError "dial tcp: connection refused").
Proof.
  destruct (request_wrapped_errors reference_lib (defaultClient "test_key" (scripted []))
              "GET" "/api/v3/memory/memorize/status/t1" None ∅ 4
              "request failed after 4 attempts"
              (ForeignError "dial tcp: connection refused")
              {| sent := replicate 4
                           (buildRequest (defaultClient "test_key" (scripted []))
                              "GET" "/api/v3/memory/memorize/status/t1" None ∅);
                 slept := [1 * Second; 2 * Second; 4 * Second] |}
              eq_refl ltac:(vm_compute; congruence))
    as [(E & _) | [(E & _) | [(E & _) | (E & _ & H)]]];
    try discriminate E.
  split; [exact E | exact H].
Defined.

Lemma request_outcome_reflects_last_response_witness :
  exists resp,
    (1 <= 1)%nat
    /\ scripted [response 200 ∅ pending_task_body] (1 - 1)%nat
         (buildRequest (defaultClient "test_key" (scripted []))
            "GET" "/api/v3/memory/memorize/status/t1" None ∅)
       = Received resp
    /\ resp_StatusCode resp < 400
    /\ parseResponse reference_lib pending_task_body
       = parseResponse reference_lib (resp_Body resp).
Proof.
  apply (request_outcome_reflects_last_response reference_lib
           (defaultClient "test_key" (scripted [response 200 ∅ pending_task_body]))
           "GET" "/api/v3/memory/memorize/status/t1" None ∅ 1
           (Ok (parseResponse reference_lib pending_task_body))
           {| sent := [buildRequest (defaultClient "test_key" (scripted []))
                         "GET" "/api/v3/memory/memorize/status/t1" None ∅];
              slept := [] |}).
  vm_compute. reflexivity.
Defined.

Lemma build_and_read_failures_are_final_witness :
  request_loop reference_lib
    (defaultClient "test_key"
       (fun _ _ => ReadFailed (ForeignError "unexpected EOF")))
    "GET" "/api/v3/memory/memorize/status/t1" None ∅ 1 0 World_init
  = Some (Fail (Errorf "failed to read response body" (ForeignError "unexpected EOF")),
          {| sent := [buildRequest (defaultClient "test_key" (scripted []))
                        "GET" "/api/v3/memory/memorize/status/t1" None ∅];
             slept := [] |}).
Proof.
  exact (proj2 (build_and_read_failures_are_final reference_lib
                  (defaultClient "test_key"
                     (fun _ _ => ReadFailed (ForeignError "unexpected EOF")))
                  "GET" "/api/v3/memory/memorize/status/t1" None ∅ eq_refl)
           (ForeignError "unexpected EOF") 0 World_init 0%nat eq_refl eq_refl).
Defined.

(** ** Transport failures under the default policy *)

Section TransportFailures.

Variable lib : StdLib.
Variable c : Client.
Variables (method path : string) (body : option Marshalled) (params : gmap string string).
Variable config : RetryConfig.
Variable errs : nat -> error.

Local Abbreviation req := (buildRequest c method path body params).
Local Abbreviation loop := (request_loop lib c method path body params).
Local Abbreviation backoffs :=
  (fun n : nat =>
     (fun i : nat => defaultRetryPolicy_GetBackoff config (Z.of_nat i)) <$> seq 0 n).

Hypothesis policy_is_default : retryPolicy c = NewDefaultRetryPolicy (Some config).
Hypothesis retries_in_range : 0 <= MaxRetries config < Int64.max_int.
Hypothesis body_marshals : marshal_failure body = None.
Hypothesis request_builds : http_NewRequest lib method (baseURL c +:+ path) = None.
Hypothesis never_connects : forall i, httpClient c i req = DoFailed (errs i).

Lemma transport_failures_from (j : nat) : forall a : nat,
  (a + j)%nat = Z.to_nat (MaxRetries config) ->
  loop (S j) (Z.of_nat a) {| sent := replicate a req; slept := backoffs a |}
  = Some (Fail (Errorf ("request failed after " +:+ pretty (MaxRetries config + 1)
                          +:+ " attempts")
                  (errs (Z.to_nat (MaxRetries config)))),
          {| sent := replicate (S (Z.to_nat (MaxRetries config))) req;
             slept := backoffs (Z.to_nat (MaxRetries config)) |}).
Proof.
  induction j as [| j IH]; intros a Ha.
  - apply request_loop_return.
    rewrite (iteration_after_marshal _ _ _ _ _ _ _ _ body_marshals), request_builds.
    simpl. rewrite length_replicate, never_connects, policy_is_default. simpl.
    unfold defaultRetryPolicy_ShouldRetry.
    destruct (Z.leb_spec (MaxRetries config) (Z.of_nat a)); [| lia].
    unfold Int64.add. rewrite wrap_in_range
      by (unfold Int64.in_range, Int64.min_int, Int64.half_modulus; lia).
    replace (Z.of_nat a + 1) with (MaxRetries config + 1) by lia.
    replace (Z.to_nat (MaxRetries config)) with a by lia.
    unfold send. simpl. by rewrite <- replicate_S_end.
  - erewrite request_loop_continue; first last.
    { rewrite (iteration_after_marshal _ _ _ _ _ _ _ _ body_marshals), request_builds.
      simpl. rewrite length_replicate, never_connects, policy_is_default. simpl.
      unfold defaultRetryPolicy_ShouldRetry.
      destruct (Z.leb_spec (MaxRetries config) (Z.of_nat a)); [lia |].
      rewrite bool_decide_eq_true_2 by done. reflexivity. }
    unfold Int64.add. rewrite wrap_in_range
      by (unfold Int64.in_range, Int64.min_int, Int64.half_modulus; lia).
    replace (Z.of_nat a + 1) with (Z.of_nat (S a)) by lia.
    unfold Sleep, send. simpl.
    rewrite <- replicate_S_end.
    replace (((fun i : nat => defaultRetryPolicy_GetBackoff config (Z.of_nat i)) <$> seq 0 a)
               ++ [defaultRetryPolicy_GetBackoff config (Z.of_nat a)])
      with (backoffs (S a)) by (by rewrite seq_S, fmap_app).
    apply IH. lia.
Qed.

(** When the transport never gets a response, the default policy over a
    configuration with [MaxRetries = n >= 0] lets the call send exactly
    [n + 1] requests, sleeping the policy's backoff of attempt i after the
    i-th failure, and the error wraps the last transport error under a
    text that counts the [n + 1] attempts. *)
Theorem transport_failures_exhaust_the_retries :
  request lib c method path body params (S (Z.to_nat (MaxRetries config)))
  = Some (Fail (Errorf ("request failed after " +:+ pretty (MaxRetries config + 1)
                          +:+ " attempts")
                  (errs (Z.to_nat (MaxRetries config)))),
          {| sent := replicate (S (Z.to_nat (MaxRetries config))) req;
             slept := backoffs (Z.to_nat (MaxRetries config)) |}).
Proof. exact (transport_failures_from (Z.to_nat (MaxRetries config)) 0%nat eq_refl). Qed.

End TransportFailures.

Lemma transport_failures_exhaust_the_retries_witness :
  request reference_lib (defaultClient "test_key" (scripted []))
    "GET" "/api/v3/memory/memorize/status/t1" None ∅ 4
  = Some (Fail (Errorf "request failed after 4 attempts"
                  (ForeignError "dial tcp: connection refused")),
          {| sent := replicate 4
                       (buildRequest (defaultClient "test_key" (scripted []))
                          "GET" "/api/v3/memory/memorize/status/t1" None ∅);
             slept := [1 * Second; 2 * Second; 4 * Second] |}).
Proof.
  exact (transport_failures_exhaust_the_retries reference_lib
           (defaultClient "test_key" (scripted []))
           "GET" "/api/v3/memory/memorize/status/t1" None ∅ DefaultRetryConfig
           (fun _ => ForeignError "dial tcp: connection refused")
           eq_refl ltac:(vm_compute; split; congruence) eq_refl eq_refl
           (fun i => eq_refl)).
Defined.

(** ** The default backoff outside its exponential range *)

(** For every configuration and attempt the default backoff stays at or
    below [MaxDelay]; for a negative attempt, and for an attempt of 64 or
    more, the shift count leaves no bit and the backoff is zero (given a
    non-negative [MaxDelay]). *)
Theorem GetBackoff_cap_and_zero_range (config : RetryConfig) (attempt : Z) :
  Int64.min_int <= attempt <= Int64.max_int ->
  defaultRetryPolicy_GetBackoff config attempt <= MaxDelay config
  /\ (attempt < 0 \/ 64 <= attempt -> 0 <= MaxDelay config ->
      defaultRetryPolicy_GetBackoff config attempt = 0).
Proof.
  intros Hr. unfold defaultRetryPolicy_GetBackoff. split.
  - destruct (Z.ltb_spec (MaxDelay config)
                (Int64.mul (BaseDelay config) (Int64.shl 1 (Int64.to_uint attempt)))); lia.
  - intros Hout Hmax.
    assert (Hshl : Int64.shl 1 (Int64.to_uint attempt) = 0).
    { unfold Int64.shl, Int64.to_uint.
      unfold Int64.min_int, Int64.max_int, Int64.half_modulus, Int64.modulus in *.
      destruct Hout as [Hneg | Hbig].
      - replace (attempt mod 2 ^ 64) with (attempt + 2 ^ 64)
          by (rewrite <- (Z.mod_add attempt 1 (2 ^ 64)) by lia;
              rewrite Z.mod_small; lia).
        destruct (Z.ltb_spec (attempt + 2 ^ 64) 64); [lia | done].
      - rewrite Z.mod_small by lia.
        destruct (Z.ltb_spec attempt 64); [lia | done]. }
    rewrite Hshl. unfold Int64.mul. rewrite Z.mul_0_r.
    change (Int64.wrap 0) with 0.
    destruct (Z.ltb_spec (MaxDelay config) 0); [lia | done].
Qed.

Lemma GetBackoff_cap_and_zero_range_witness :
  defaultRetryPolicy_GetBackoff DefaultRetryConfig 64 <= MaxDelay DefaultRetryConfig
  /\ defaultRetryPolicy_GetBackoff DefaultRetryConfig 64 = 0.
Proof.
  destruct (GetBackoff_cap_and_zero_range DefaultRetryConfig 64
              ltac:(vm_compute; split; congruence)) as [Hcap Hzero].
  split; [exact Hcap |].
  apply Hzero; [right; lia | vm_compute; congruence].
Defined.

(* ===================================================================== *)
(** * Requests, payloads and the API methods *)
(* ===================================================================== *)

(** ** Validation *)

(** [MemorizeRequest.Validate] accepts exactly the requests with a user
    id, an agent id and either at least three messages or no message and
    a conversation text; the checks run in that order, and a text does
    not make up for a conversation of one or two messages. *)
Theorem MemorizeRequest_Validate_table (r : MemorizeRequest.t) :
  (MemorizeRequest.Validate r = None <->
     MemorizeRequest.UserID r <> EmptyString
     /\ MemorizeRequest.AgentID r <> EmptyString
     /\ ((3 <= length (MemorizeRequest.Conversation r))%nat
         \/ (MemorizeRequest.Conversation r = []
             /\ MemorizeRequest.ConversationText r <> None)))
  /\ (MemorizeRequest.UserID r = EmptyString ->
      MemorizeRequest.Validate r = Some (plain_error "Memorize: UserID is required"))
  /\ (MemorizeRequest.UserID r <> EmptyString ->
      MemorizeRequest.AgentID r = EmptyString ->
      MemorizeRequest.Validate r = Some (plain_error "Memorize: AgentID is required"))
  /\ (MemorizeRequest.UserID r <> EmptyString ->
      MemorizeRequest.AgentID r <> EmptyString ->
      MemorizeRequest.Conversation r = [] ->
      MemorizeRequest.ConversationText r = None ->
      MemorizeRequest.Validate r
        = Some (plain_error
                  "Memorize: either Conversation or ConversationText must be provided"))
  /\ (MemorizeRequest.UserID r <> EmptyString ->
      MemorizeRequest.AgentID r <> EmptyString ->
      (0 < length (MemorizeRequest.Conversation r) < 3)%nat ->
      MemorizeRequest.Validate r
        = Some (plain_error "Memorize: Conversation must contain at least 3 messages")).
Proof.
  unfold MemorizeRequest.Validate.
  destruct r as [conv text uid aid uname aname date]; simpl.
  destruct (decide (uid = EmptyString)) as [Hu | Hu];
    [| destruct (decide (aid = EmptyString)) as [Ha | Ha]].
  - split; [split; [discriminate | tauto] |]. repeat split; intros; tauto.
  - split; [split; [discriminate | tauto] |]. repeat split; intros; tauto.
  - destruct conv as [| m1 [| m2 [| m3 rest]]]; simpl.
    + destruct text as [t |]; simpl.
      * split; [split; [intros _; repeat split; try done; right; done | done] |].
        repeat split; intros; first [ tauto | discriminate | lia ].
      * split; [split; [discriminate | intros (_ & _ & [? | [_ ?]]); [lia | done]] |].
        repeat split; intros; first [ tauto | done | lia ].
    + split; [split; [discriminate | intros (_ & _ & [? | [? _]]); [lia | discriminate]] |].
      repeat split; intros; first [ tauto | discriminate | done ].
    + split; [split; [discriminate | intros (_ & _ & [? | [? _]]); [lia | discriminate]] |].
      repeat split; intros; first [ tauto | discriminate | done ].
    + split; [split; [intros _; repeat split; try done; left; lia | done] |].
      repeat split; intros; first [ tauto | discriminate | lia ].
Qed.

(** [RetrieveRequest.Validate] accepts exactly the requests with a
    non-nil query, a user id and an agent id, and reports a nil query
    first; [ListCategoriesRequest.Validate] asks for the user id only. *)
Theorem Retrieve_and_ListCategories_required_fields
    (r : RetrieveRequest.t) (l : ListCategoriesRequest.t) :
  (RetrieveRequest.Validate r = None <->
     RetrieveRequest.Query r <> GoNil
     /\ RetrieveRequest.UserID r <> EmptyString
     /\ RetrieveRequest.AgentID r <> EmptyString)
  /\ (RetrieveRequest.Query r = GoNil ->
      RetrieveRequest.Validate r = Some (plain_error "Retrieve: Query is required"))
  /\ (ListCategoriesRequest.Validate l = None <->
      ListCategoriesRequest.UserID l <> EmptyString).
Proof.
  unfold RetrieveRequest.Validate, ListCategoriesRequest.Validate.
  destruct r as [q uid aid], l as [luid laid]; simpl.
  split; [| split].
  - destruct q; simpl;
      destruct (decide (uid = EmptyString)); destruct (decide (aid = EmptyString));
      split; first [ discriminate | tauto | intros; repeat split; done ].
  - intros ->. reflexivity.
  - destruct (decide (luid = EmptyString)); split; first [ discriminate | tauto | done ].
Qed.

(** ** Payloads *)

(** The payload of a memorize request always carries the two ids and the
    two display names, "User" and "Assistant" standing in for empty
    names; it carries the conversation when there is one and the
    conversation text only when there is no conversation, so a text given
    beside a conversation is dropped; it carries the session date when
    given, and no other key.  For a request that passed validation exactly
    one of "conversation" and "conversation_text" is present. *)
Theorem buildMemorizePayload_fields (req : MemorizeRequest.t) :
  buildMemorizePayload req !! "user_id" = Some (GoString (MemorizeRequest.UserID req))
  /\ buildMemorizePayload req !! "agent_id" = Some (GoString (MemorizeRequest.AgentID req))
  /\ buildMemorizePayload req !! "user_name"
     = Some (GoString (if decide (MemorizeRequest.UserName req = EmptyString)
                       then "User" else MemorizeRequest.UserName req))
  /\ buildMemorizePayload req !! "agent_name"
     = Some (GoString (if decide (MemorizeRequest.AgentName req = EmptyString)
                       then "Assistant" else MemorizeRequest.AgentName req))
  /\ buildMemorizePayload req !! "conversation"
     = match MemorizeRequest.Conversation req with
       | [] => None
       | _ :: _ => Some (GoMessages (MemorizeRequest.Conversation req))
       end
  /\ buildMemorizePayload req !! "conversation_text"
     = match MemorizeRequest.Conversation req with
       | [] => GoString <$> MemorizeRequest.ConversationText req
       | _ :: _ => None
       end
  /\ buildMemorizePayload req !! "session_date"
     = GoString <$> MemorizeRequest.SessionDate req
  /\ dom (buildMemorizePayload req)
     ⊆ {[ "user_id"; "agent_id"; "user_name"; "agent_name";
          "conversation"; "conversation_text"; "session_date" ]}
  /\ (MemorizeRequest.Validate req = None ->
      (is_Some (buildMemorizePayload req !! "conversation")
       <-> buildMemorizePayload req !! "conversation_text" = None)).
Proof.
  assert (Hone : MemorizeRequest.Validate req = None ->
                 MemorizeRequest.Conversation req = [] ->
                 is_Some (MemorizeRequest.ConversationText req)).
  { unfold MemorizeRequest.Validate. intros Hv Hc. rewrite Hc in Hv. simpl in Hv.
    destruct (decide (MemorizeRequest.UserID req = EmptyString)); [discriminate |].
    destruct (decide (MemorizeRequest.AgentID req = EmptyString)); [discriminate |].
    destruct (MemorizeRequest.ConversationText req); [eauto | discriminate]. }
  unfold buildMemorizePayload.
  destruct req as [conv text uid aid uname aname date]; simpl in *.
  destruct (decide (uname <> EmptyString)) as [Hu | Hu];
    destruct (decide (uname = EmptyString)) as [Hu' | Hu']; try done;
    destruct (decide (aname <> EmptyString)) as [Ha | Ha];
    destruct (decide (aname = EmptyString)) as [Ha' | Ha']; try done;
    destruct conv as [| m conv]; destruct text as [t |]; destruct date as [d |]; simpl;
    (repeat match goal with |- _ /\ _ => split end);
    try (by simplify_map_eq);
    try (intros k; rewrite elem_of_dom; intros [v Hv];
         rewrite !elem_of_union, !elem_of_singleton;
         repeat (apply lookup_insert_Some in Hv as [[<- _] | [_ Hv]]; [tauto |]);
         apply lookup_singleton_Some in Hv as [<- _]; tauto).
  all: intros Hv; try (destruct (Hone Hv eq_refl) as [? [=]]).
  all: simplify_map_eq; split; intros H; first [ done | by destruct H | eauto ].
Qed.

(** ** The API methods *)

Lemma string_at_spec (response : payload) (key s : string) :
  string_at response key = Some s
  <-> exists m, response = Some m /\ m !! key = Some (JString s).
Proof.
  unfold string_at. split.
  - destruct response as [m |]; [| discriminate].
    destruct (m !! key) as [[| | | s' | |] |] eqn:E; try discriminate.
    intros [= ->]. eauto.
  - intros (m & -> & ->). reflexivity.
Qed.

Lemma array_at_spec (response : payload) (key : string) (l : list json) :
  array_at response key = Some l
  <-> exists m, response = Some m /\ m !! key = Some (JArray l).
Proof.
  unfold array_at. split.
  - destruct response as [m |]; [| discriminate].
    destruct (m !! key) as [[| | | | l' |] |] eqn:E; try discriminate.
    intros [= ->]. eauto.
  - intros (m & -> & ->). reflexivity.
Qed.

Section APIFacts.

Variable lib : StdLib.
Variable codec : JsonCodec.
Variable c : Client.

(** Input rejected by a method never reaches the network: a nil request,
    a request that fails validation (a missing id, a missing or too short
    conversation, a nil query) and an empty task id all return their error
    with nothing sent and no sleep, for every amount of fuel. *)
Theorem invalid_input_sends_nothing (fuel : nat) :
  (forall req,
      MemorizeRequest.UserID req = EmptyString
      \/ MemorizeRequest.AgentID req = EmptyString
      \/ (MemorizeRequest.Conversation req = []
          /\ MemorizeRequest.ConversationText req = None)
      \/ (0 < length (MemorizeRequest.Conversation req) < 3)%nat ->
      exists err, Memorize lib codec c (Some req) fuel = Some (Failure err, World_init))
  /\ (forall req,
      RetrieveRequest.Query req = GoNil
      \/ RetrieveRequest.UserID req = EmptyString
      \/ RetrieveRequest.AgentID req = EmptyString ->
      exists err, Retrieve lib codec c (Some req) fuel = Some (Failure err, World_init))
  /\ (forall req,
      ListCategoriesRequest.UserID req = EmptyString ->
      exists err, ListCategories lib codec c (Some req) fuel = Some (Failure err, World_init))
  /\ GetTaskStatus lib codec c EmptyString fuel
     = Some (Failure (plain_error "taskID is required"), World_init)
  /\ Memorize lib codec c None fuel
     = Some (Failure (plain_error "Memorize: request is required"), World_init)
  /\ Retrieve lib codec c None fuel
     = Some (Failure (plain_error "Retrieve: request is required"), World_init)
  /\ ListCategories lib codec c None fuel
     = Some (Failure (plain_error "ListCategories: request is required"), World_init).
Proof.
  split; [| split; [| split; [| repeat split]]].
  - intros req H. unfold Memorize.
    destruct (MemorizeRequest.Validate req) as [err |] eqn:E; [eauto |].
    exfalso. unfold MemorizeRequest.Validate in E.
    destruct (decide (MemorizeRequest.UserID req = EmptyString)); [discriminate |].
    destruct (decide (MemorizeRequest.AgentID req = EmptyString)); [discriminate |].
    destruct H as [? | [? | [[Hc Ht] | Hlen]]]; try done.
    + rewrite Hc, Ht in E. discriminate.
    + destruct (MemorizeRequest.Conversation req) as [| m1 [| m2 [| m3 rest]]];
        simpl in *; first [ lia | discriminate ].
  - intros req H. unfold Retrieve.
    destruct (RetrieveRequest.Validate req) as [err |] eqn:E; [eauto |].
    exfalso. unfold RetrieveRequest.Validate in E.
    destruct H as [Hq | [Hu | Ha]].
    + rewrite Hq in E. discriminate.
    + destruct (RetrieveRequest.Query req); try discriminate;
        destruct (decide (RetrieveRequest.UserID req = EmptyString)); done.
    + destruct (RetrieveRequest.Query req); try discriminate;
        destruct (decide (RetrieveRequest.UserID req = EmptyString)); try discriminate;
        destruct (decide (RetrieveRequest.AgentID req = EmptyString)); done.
  - intros req H. unfold ListCategories, ListCategoriesRequest.Validate.
    destruct (decide (ListCategoriesRequest.UserID req = EmptyString)); [eauto | done].
Qed.

(** What comes back from [Memorize]: an error is either the validation
    error, with nothing sent, or the executor's error as it is, not
    wrapped; a result is built from a successful response, each field
    being set exactly when the decoded body holds a string under its key.
    A successful response never makes [Memorize] fail, whatever its
    shape. *)
Theorem Memorize_outcomes (req : MemorizeRequest.t) (fuel : nat) :
  (forall out w,
      Memorize lib codec c (Some req) fuel = Some (out, w) ->
      match out with
      | Failure err =>
          (MemorizeRequest.Validate req = Some err /\ w = World_init)
          \/ (MemorizeRequest.Validate req = None
              /\ request lib c "POST" "/api/v3/memory/memorize"
                   (Some (Marshal_payload codec (buildMemorizePayload req))) ∅ fuel
                 = Some (Fail err, w))
      | Value result =>
          MemorizeRequest.Validate req = None
          /\ exists response,
               request lib c "POST" "/api/v3/memory/memorize"
                 (Some (Marshal_payload codec (buildMemorizePayload req))) ∅ fuel
               = Some (Ok response, w)
               /\ (forall s, MemorizeResult.TaskID result = Some s
                             <-> exists m, response = Some m
                                           /\ m !! "task_id" = Some (JString s))
               /\ (forall s, MemorizeResult.Status result = Some s
                             <-> exists m, response = Some m
                                           /\ m !! "status" = Some (JString s))
               /\ (forall s, MemorizeResult.Message result = Some s
                             <-> exists m, response = Some m
                                           /\ m !! "message" = Some (JString s))
      end)
  /\ (forall response w,
      MemorizeRequest.Validate req = None ->
      request lib c "POST" "/api/v3/memory/memorize"
        (Some (Marshal_payload codec (buildMemorizePayload req))) ∅ fuel
      = Some (Ok response, w) ->
      exists result, Memorize lib codec c (Some req) fuel = Some (Value result, w)).
Proof.
  split.
  - intros out w. unfold Memorize.
    destruct (MemorizeRequest.Validate req) as [verr |] eqn:Ev.
    { intros [= <- <-]. by left. }
    destruct (request lib c "POST" "/api/v3/memory/memorize"
                (Some (Marshal_payload codec (buildMemorizePayload req))) ∅ fuel)
      as [[[response | err] w'] |] eqn:Er; [| | discriminate].
    + intros [= <- <-]. split; [done |]. exists response. split; [done |].
      simpl. repeat split; intros; by apply string_at_spec.
    + intros [= <- <-]. by right.
  - intros response w Hv Hr. unfold Memorize. rewrite Hv, Hr. eauto.
Qed.

(** What comes back from [ListCategories] once the request is valid: the
    executor's error as it is; an empty list, without error and without
    any decoding, whenever the decoded body has no non-empty array under
    "categories" (no such key, another kind of value there, a nil body);
    and otherwise the decoded array, or its marshal/unmarshal error under
    "failed to parse categories". *)
Theorem ListCategories_outcomes (req : ListCategoriesRequest.t) (fuel : nat)
    (out : Outcome (list (option MemoryCategory.t))) (w : World) :
  ListCategories lib codec c (Some req) fuel = Some (out, w) ->
  ListCategoriesRequest.UserID req <> EmptyString ->
  exists r,
    request lib c "POST" "/api/v3/memory/categories"
      (Some (Marshal_payload codec
               {[ "user_id" := GoString (ListCategoriesRequest.UserID req);
                  "agent_id" := GoStringPtr (ListCategoriesRequest.AgentID req) ]}))
      ∅ fuel
    = Some (r, w)
    /\ match r with
       | Fail err => out = Failure err
       | Ok response =>
           match array_at response "categories" with
           | None | Some [] => out = Value []
           | Some (v :: l) =>
               match out with
               | Value parsed =>
                   exists jsonBytes,
                     Marshal_array codec (v :: l) = MarshalOk jsonBytes
                     /\ Unmarshal_categories codec jsonBytes = Value parsed
               | Failure err =>
                   exists cause,
                     err = Errorf "failed to parse categories" cause
                     /\ ((exists e,
                            Marshal_array codec (v :: l) = MarshalError e
                            /\ cause = Errorf "failed to marshal array" e)
                         \/ exists jsonBytes e,
                              Marshal_array codec (v :: l) = MarshalOk jsonBytes
                              /\ Unmarshal_categories codec jsonBytes = Failure e
                              /\ cause = Errorf "failed to unmarshal array" e)
               end
           end
       end.
Proof.
  intros H Hu. unfold ListCategories, ListCategoriesRequest.Validate in H.
  destruct (decide (ListCategoriesRequest.UserID req = EmptyString)); [done |].
  destruct (request lib c "POST" "/api/v3/memory/categories"
              (Some (Marshal_payload codec
                       {[ "user_id" := GoString (ListCategoriesRequest.UserID req);
                          "agent_id" := GoStringPtr (ListCategoriesRequest.AgentID req) ]}))
              ∅ fuel) as [[[response | err] w'] |] eqn:Er; [| | discriminate].
  - unfold array_at.
    destruct response as [m |];
      [| injection H as <- <-; eexists; split; reflexivity].
    destruct (m !! "categories") as [[| | | | [| v l] |] |] eqn:Em;
      try (injection H as <- <-; eexists; split; [reflexivity |]; simpl;
           rewrite Em; reflexivity).
    unfold parseJSONArray in H. simpl in H.
    destruct (Marshal_array codec (v :: l)) as [e | jsonBytes] eqn:Ema.
    + injection H as <- <-. eexists. split; [reflexivity |]. simpl. rewrite Em.
      eexists. split; [reflexivity |]. left. eauto.
    + destruct (Unmarshal_categories codec jsonBytes) as [parsed | e] eqn:Eun;
        injection H as <- <-; eexists; (split; [reflexivity |]); simpl; rewrite Em.
      * eauto.
      * eexists. split; [reflexivity |]. right. eauto.
  - injection H as <- <-. eexists. split; reflexivity.
Qed.

(** [GetTaskStatus] for a non-empty id: an error is the executor's error
    as it is, or a decoding error under "failed to parse task status"; a
    status returned without error is never nil, not even for an empty
    response body. *)
Theorem GetTaskStatus_outcomes (taskID : string) (fuel : nat)
    (out : Outcome (option TaskStatus.t)) (w : World) :
  GetTaskStatus lib codec c taskID fuel = Some (out, w) ->
  taskID <> EmptyString ->
  exists r,
    request lib c "GET" ("/api/v3/memory/memorize/status/" +:+ taskID) None ∅ fuel
    = Some (r, w)
    /\ match out with
       | Value status =>
           is_Some status /\ exists response, r = Ok response
       | Failure err =>
           r = Fail err
           \/ exists response cause text,
                r = Ok response
                /\ err = Errorf "failed to parse task status" (Errorf text cause)
                /\ (text = "failed to marshal object" \/ text = "failed to unmarshal object")
       end.
Proof.
  intros H Hid. unfold GetTaskStatus in H.
  destruct (decide (taskID = EmptyString)); [done |].
  destruct (request lib c "GET" ("/api/v3/memory/memorize/status/" +:+ taskID) None ∅ fuel)
    as [[[response | err] w'] |] eqn:Er; [| | discriminate].
  - unfold parseJSONObject in H.
    destruct (Marshal_object codec response) as [e | jsonBytes].
    + injection H as <- <-. eexists. split; [reflexivity |]. right. eauto 10.
    + destruct (Unmarshal_TaskStatus codec jsonBytes) as [obj | e];
        injection H as <- <-; eexists; (split; [reflexivity |]).
      * eauto.
      * right. eauto 10.
  - injection H as <- <-. eexists. split; [reflexivity |]. by left.
Qed.

(** [Retrieve] on a response whose decoded body holds no non-empty array
    under "categories", "items" and "resources" returns, without error
    and without any decoding, a result with three empty lists and the
    rewritten query set exactly when the body holds a string under
    "rewritten_query". *)
Theorem Retrieve_without_arrays (req : RetrieveRequest.t) (fuel : nat)
    (response : payload) (w : World) :
  RetrieveRequest.Validate req = None ->
  request lib c "POST" "/api/v3/memory/retrieve"
    (Some (Marshal_payload codec
             {[ "user_id" := GoString (RetrieveRequest.UserID req);
                "agent_id" := GoString (RetrieveRequest.AgentID req);
                "query" := RetrieveRequest.Query req ]}))
    ∅ fuel
  = Some (Ok response, w) ->
  (forall key v l, array_at response key <> Some (v :: l)) ->
  Retrieve lib codec c (Some req) fuel
  = Some (Value {| RetrieveResult.RewrittenQuery := string_at response "rewritten_query";
                   RetrieveResult.Categories := [];
                   RetrieveResult.Items := [];
                   RetrieveResult.Resources := [] |}, w).
Proof.
  intros Hv Hr Hno. unfold Retrieve. rewrite Hv, Hr.
  assert (Hempty : forall T key (un : string -> Outcome (list (option T))),
             match array_at response key with
             | Some l => parseJSONArray (Marshal_array codec) un l
             | None => Value []
             end = Value []).
  { intros T key un. destruct (array_at response key) as [[| v l] |] eqn:E;
      [reflexivity | by apply Hno in E | reflexivity]. }
  by rewrite !Hempty.
Qed.

(** The errors of [Retrieve]: the validation error with nothing sent, the
    executor's error as it is, or a decoding error of the first of
    "categories", "items", "resources" that fails to decode. *)
Theorem Retrieve_errors (req : RetrieveRequest.t) (fuel : nat) (err : error) (w : World) :
  Retrieve lib codec c (Some req) fuel = Some (Failure err, w) ->
  (RetrieveRequest.Validate req = Some err /\ w = World_init)
  \/ (RetrieveRequest.Validate req = None
      /\ exists r,
           request lib c "POST" "/api/v3/memory/retrieve"
             (Some (Marshal_payload codec
                      {[ "user_id" := GoString (RetrieveRequest.UserID req);
                         "agent_id" := GoString (RetrieveRequest.AgentID req);
                         "query" := RetrieveRequest.Query req ]}))
             ∅ fuel
           = Some (r, w)
           /\ (r = Fail err
               \/ exists response cause,
                    r = Ok response
                    /\ (err = Errorf "failed to parse categories" cause
                        \/ err = Errorf "failed to parse items" cause
                        \/ err = Errorf "failed to parse resources" cause))).
Proof.
  unfold Retrieve.
  destruct (RetrieveRequest.Validate req) as [verr |] eqn:Ev.
  { intros [= <- <-]. by left. }
  intros H. right. split; [done |].
  destruct (request lib c "POST" "/api/v3/memory/retrieve"
              (Some (Marshal_payload codec
                       {[ "user_id" := GoString (RetrieveRequest.UserID req);
                          "agent_id" := GoString (RetrieveRequest.AgentID req);
                          "query" := RetrieveRequest.Query req ]}))
              ∅ fuel) as [[[response | rerr] w'] |] eqn:Er; [| | discriminate].
  - destruct (match array_at response "categories" with
              | Some l => parseJSONArray (Marshal_array codec) (Unmarshal_categories codec) l
              | None => Value []
              end) as [cats | e1].
    + destruct (match array_at response "items" with
                | Some l => parseJSONArray (Marshal_array codec) (Unmarshal_items codec) l
                | None => Value []
                end) as [items | e2].
      * destruct (match array_at response "resources" with
                  | Some l =>
                      parseJSONArray (Marshal_array codec) (Unmarshal_resources codec) l
                  | None => Value []
                  end) as [ress | e3]; [discriminate |].
        injection H as <- <-. eexists. split; [reflexivity |]. right. eauto 10.
      * injection H as <- <-. eexists. split; [reflexivity |]. right. eauto 10.
    + injection H as <- <-. eexists. split; [reflexivity |]. right. eauto 10.
  - injection H as <- <-. eexists. split; [reflexivity |]. by left.
Qed.

(** Each method, whatever it returns, has sent one fixed request as many
    times as it sent anything: a POST of the marshalled payload to the
    method's path for [Memorize], [Retrieve] and [ListCategories], a GET
    without body to the status path followed by the task id as given for
    [GetTaskStatus]; always without query parameters and under the three
    default headers. *)
Theorem api_methods_send_fixed_requests (fuel : nat) :
  (forall req out w,
      Memorize lib codec c (Some req) fuel = Some (out, w) ->
      sent w = replicate (length (sent w))
                 {| Method := "POST";
                    URL := baseURL c +:+ "/api/v3/memory/memorize";
                    Header := defaultHeaders c;
                    Params := ∅;
                    Body := match Marshal_payload codec (buildMemorizePayload req) with
                            | MarshalOk jsonData => Some jsonData
                            | MarshalError _ => None
                            end |})
  /\ (forall req out w,
      Retrieve lib codec c (Some req) fuel = Some (out, w) ->
      sent w = replicate (length (sent w))
                 {| Method := "POST";
                    URL := baseURL c +:+ "/api/v3/memory/retrieve";
                    Header := defaultHeaders c;
                    Params := ∅;
                    Body := match Marshal_payload codec
                                    {[ "user_id" := GoString (RetrieveRequest.UserID req);
                                       "agent_id" := GoString (RetrieveRequest.AgentID req);
                                       "query" := RetrieveRequest.Query req ]} with
                            | MarshalOk jsonData => Some jsonData
                            | MarshalError _ => None
                            end |})
  /\ (forall req out w,
      ListCategories lib codec c (Some req) fuel = Some (out, w) ->
      sent w = replicate (length (sent w))
                 {| Method := "POST";
                    URL := baseURL c +:+ "/api/v3/memory/categories";
                    Header := defaultHeaders c;
                    Params := ∅;
                    Body := match Marshal_payload codec
                                    {[ "user_id" :=
                                         GoString (ListCategoriesRequest.UserID req);
                                       "agent_id" :=
                                         GoStringPtr (ListCategoriesRequest.AgentID req) ]}
                            with
                            | MarshalOk jsonData => Some jsonData
                            | MarshalError _ => None
                            end |})
  /\ (forall taskID out w,
      GetTaskStatus lib codec c taskID fuel = Some (out, w) ->
      sent w = replicate (length (sent w))
                 {| Method := "GET";
                    URL := baseURL c +:+ ("/api/v3/memory/memorize/status/" +:+ taskID);
                    Header := defaultHeaders c;
                    Params := ∅;
                    Body := None |})
  /\ (defaultHeaders c !! "Authorization" = Some ("Bearer " +:+ apiKey c)
      /\ defaultHeaders c !! "Content-Type" = Some "application/json"
      /\ defaultHeaders c !! "User-Agent" = Some "memu-go-sdk/1.0.0"
      /\ dom (defaultHeaders c) = {[ "Authorization"; "Content-Type"; "User-Agent" ]}).
Proof.
  split; [| split; [| split; [| split]]].
  - intros req out w. unfold Memorize.
    destruct (MemorizeRequest.Validate req); [by intros [= <- <-] |].
    destruct (request lib c "POST" "/api/v3/memory/memorize"
                (Some (Marshal_payload codec (buildMemorizePayload req))) ∅ fuel)
      as [[r w'] |] eqn:Er; [| discriminate].
    apply request_trace in Er. destruct Er as [Hs _].
    intros H. assert (w = w') as -> by (destruct r; congruence).
    rewrite Hs at 1. unfold buildRequest.
    by destruct (Marshal_payload codec (buildMemorizePayload req)).
  - intros req out w. unfold Retrieve.
    destruct (RetrieveRequest.Validate req); [by intros [= <- <-] |].
    destruct (request lib c "POST" "/api/v3/memory/retrieve" _ ∅ fuel)
      as [[r w'] |] eqn:Er; [| discriminate].
    apply request_trace in Er. destruct Er as [Hs _].
    intros H.
    assert (w = w') as ->.
    { destruct r as [response | err]; [| congruence].
      repeat match type of H with
             | context [match ?x with Value _ => _ | Failure _ => _ end] => destruct x
             end; congruence. }
    rewrite Hs at 1. unfold buildRequest.
    by destruct (Marshal_payload codec _).
  - intros req out w. unfold ListCategories.
    destruct (ListCategoriesRequest.Validate req); [by intros [= <- <-] |].
    destruct (request lib c "POST" "/api/v3/memory/categories" _ ∅ fuel)
      as [[r w'] |] eqn:Er; [| discriminate].
    apply request_trace in Er. destruct Er as [Hs _].
    intros H.
    assert (w = w') as ->.
    { destruct r as [response | err]; [| congruence].
      destruct response as [m |]; [| congruence].
      destruct (m !! "categories") as [[| | | | l |] |]; try congruence.
      destruct (parseJSONArray (Marshal_array codec) (Unmarshal_categories codec) l);
        congruence. }
    rewrite Hs at 1. unfold buildRequest.
    by destruct (Marshal_payload codec _).
  - intros taskID out w. unfold GetTaskStatus.
    destruct (decide (taskID = EmptyString)); [by intros [= <- <-] |].
    destruct (request lib c "GET" _ None ∅ fuel) as [[r w'] |] eqn:Er; [| discriminate].
    apply request_trace in Er. destruct Er as [Hs _].
    intros H.
    assert (w = w') as ->.
    { destruct r as [response | err]; [| congruence].
      destruct (parseJSONObject (Marshal_object codec) (Unmarshal_TaskStatus codec)
                  (Some response)); congruence. }
    by rewrite Hs at 1.
  - unfold defaultHeaders. split; [by simplify_map_eq |].
    split; [by simplify_map_eq |]. split; [by simplify_map_eq |].
    vm_compute. reflexivity.
Qed.

End APIFacts.

Lemma ListCategories_outcomes_witness :
  exists r,
    request reference_lib
      (defaultClient "test_key" (scripted [response 200 ∅ "plain text"]))
      "POST" "/api/v3/memory/categories"
      (Some (Marshal_payload sample_codec
               {[ "user_id" := GoString "user_123"; "agent_id" := GoStringPtr None ]}))
      ∅ 1
    = Some (r, {| sent := [buildRequest (defaultClient "test_key" (scripted []))
                             "POST" "/api/v3/memory/categories" (Some (MarshalOk "{}")) ∅];
                  slept := [] |})
    /\ match r with
       | Fail err => (Value [] : Outcome (list (option MemoryCategory.t))) = Failure err
       | Ok response =>
           match array_at response "categories" with
           | None | Some [] => (Value [] : Outcome (list (option MemoryCategory.t))) = Value []
           | Some (v :: l) =>
               exists jsonBytes,
                 Marshal_array sample_codec (v :: l) = MarshalOk jsonBytes
                 /\ Unmarshal_categories sample_codec jsonBytes = Value []
           end
       end.
Proof.
  apply (ListCategories_outcomes reference_lib sample_codec
           (defaultClient "test_key" (scripted [response 200 ∅ "plain text"]))
           (ListCategoriesRequest.mk "user_123" None) 1 (Value [])
           {| sent := [buildRequest (defaultClient "test_key" (scripted []))
                         "POST" "/api/v3/memory/categories" (Some (MarshalOk "{}")) ∅];
              slept := [] |}).
  - vm_compute. reflexivity.
  - discriminate.
Defined.

Lemma GetTaskStatus_outcomes_witness :
  exists r,
    request reference_lib
      (defaultClient "test_key" (scripted [response 200 ∅ EmptyString]))
      "GET" ("/api/v3/memory/memorize/status/" +:+ "t1") None ∅ 1
    = Some (r, {| sent := [buildRequest (defaultClient "test_key" (scripted []))
                             "GET" "/api/v3/memory/memorize/status/t1" None ∅];
                  slept := [] |})
    /\ is_Some (Some (TaskStatus.mk EmptyString EmptyString EmptyString EmptyString))
    /\ exists response, r = Ok response.
Proof.
  apply (GetTaskStatus_outcomes reference_lib sample_codec
           (defaultClient "test_key" (scripted [response 200 ∅ EmptyString]))
           "t1" 1
           (Value (Some (TaskStatus.mk EmptyString EmptyString EmptyString EmptyString)))
           {| sent := [buildRequest (defaultClient "test_key" (scripted []))
                         "GET" "/api/v3/memory/memorize/status/t1" None ∅];
              slept := [] |}).
  - vm_compute. reflexivity.
  - discriminate.
Defined.

Lemma Retrieve_without_arrays_witness :
  Retrieve reference_lib sample_codec
    (defaultClient "test_key" (scripted [response 200 ∅ "plain text"]))
    (Some (RetrieveRequest.mk (GoString "hobbies") "user_123" "agent_456")) 1
  = Some (Value {| RetrieveResult.RewrittenQuery :=
                     string_at (Some {[ "raw" := JString "plain text" ]}) "rewritten_query";
                   RetrieveResult.Categories := [];
                   RetrieveResult.Items := [];
                   RetrieveResult.Resources := [] |},
          {| sent := [buildRequest (defaultClient "test_key" (scripted []))
                        "POST" "/api/v3/memory/retrieve" (Some (MarshalOk "{}")) ∅];
             slept := [] |}).
Proof.
  apply (Retrieve_without_arrays reference_lib sample_codec
           (defaultClient "test_key" (scripted [response 200 ∅ "plain text"]))
           (RetrieveRequest.mk (GoString "hobbies") "user_123" "agent_456") 1
           (Some {[ "raw" := JString "plain text" ]})).
  - reflexivity.
  - vm_compute. reflexivity.
  - intros key v l. unfold array_at.
    destruct (decide (key = "raw")) as [-> | Hne].
    + rewrite lookup_singleton_eq. discriminate.
    + rewrite lookup_singleton_ne by done. discriminate.
Defined.

Lemma Retrieve_errors_witness :
  RetrieveRequest.Validate (RetrieveRequest.mk GoNil "user_123" "agent_456")
  = Some (plain_error "Retrieve: Query is required").
Proof.
  destruct (Retrieve_errors reference_lib sample_codec
              (defaultClient "test_key" (scripted []))
              (RetrieveRequest.mk GoNil "user_123" "agent_456") 1
              (plain_error "Retrieve: Query is required") World_init eq_refl)
    as [[H _] | [H _]].
  - exact H.
  - discriminate H.
Defined.

(** A memorize call answered with the pending-task body returns the task
    id and the status of that body, and no message. *)
Example Memorize_pending_task :
  Memorize reference_lib sample_codec
    (defaultClient "test_key" (scripted [response 200 ∅ pending_task_body]))
    (Some (MemorizeRequest.mk [] (Some "User: Hello") "user_123" "agent_456"
             EmptyString EmptyString None)) 1
  = Some (Value (MemorizeResult.mk (Some "t1") (Some "PENDING") None),
          {| sent := [buildRequest (defaultClient "test_key" (scripted []))
                        "POST" "/api/v3/memory/memorize" (Some (MarshalOk "{}")) ∅];
             slept := [] |}).
Proof. vm_compute. reflexivity. Qed.
